(** * neko-plugins: the API session-token manager and the InfluxDB number helper

    A shallow embedding of

    - [packages/api-jwt/src/lib/client.ts]: the class [Client], which signs
      and verifies session tokens with [jsonwebtoken], persists sessions
      through optional hooks and runs the OAuth2 code/refresh exchange;
    - [packages/influxdb/src/lib/utils/common.ts]: [tryNumberParse].

    The methods of [Client] are [async]: each one is embedded as a computation
    in a state-and-exception monad.  A rejected promise is the outcome
    [Throws], a fulfilled one is [Returns].  The state holds the object
    [this], the world outside the manager (session store, network, wall
    clock) and the chronological list of calls made to collaborators. *)

From Stdlib Require Import ZArith String Ascii List Bool Lia.
From Stdlib Require Import Floats.SpecFloat.
Import ListNotations.

Local Open Scope string_scope.
Local Open Scope Z_scope.
Set Warnings "-register-all".

(** ** JavaScript values, exceptions and [Result] *)

Module Js.

(** JSON values, as [JSON.parse] yields them and [jwt.sign] embeds them.
    An object keeps its properties in insertion order. *)
Inductive json : Type :=
| JNull
| JBool (b : bool)
| JNum (n : Z)
| JStr (s : string)
| JArr (items : list json)
| JObj (fields : list (string * json)).

(** [o[k]] on the properties of an object: [None] is [undefined]. *)
Fixpoint obj_get (k : string) (fields : list (string * json)) : option json :=
  match fields with
  | [] => None
  | (k', v) :: rest => if String.eqb k k' then Some v else obj_get k rest
  end.

(** [j.k] for a JSON value [j] that is not nullish: a property of an object,
    [undefined] on anything else. *)
Definition prop (k : string) (j : json) : option json :=
  match j with
  | JObj fields => obj_get k fields
  | _ => None
  end.

Definition has_key (k : string) (fields : list (string * json)) : bool :=
  match obj_get k fields with Some _ => true | None => false end.

(** A thrown value: an [Error] with its constructor name and message. *)
Record JsError : Type := mkError { err_name : string; err_message : string }.

Definition TypeError (msg : string) : JsError := mkError "TypeError" msg.
Definition SyntaxError (msg : string) : JsError := mkError "SyntaxError" msg.

(** How a call ends: with a value, or with an exception (for an [async]
    function: a fulfilled or a rejected promise). *)
Inductive outcome (A : Type) : Type :=
| Returns (a : A)
| Throws (e : JsError).
Arguments Returns {A} a.
Arguments Throws {A} e.

(** [if (s)] on [string | undefined]: [undefined] and the empty string are
    falsy. *)
Definition truthy_string (s : option string) : bool :=
  match s with
  | Some s => negb (String.eqb s "")
  | None => false
  end.

(** [isNullish] of [@sapphire/utilities] on a JSON value. *)
Definition isNullish (j : json) : bool :=
  match j with JNull => true | _ => false end.

(** [isNullish] on a value that may also be [undefined] ([None]). *)
Definition isNullish_opt (v : option json) : bool :=
  match v with
  | None => true
  | Some j => isNullish j
  end.

(** [Result] of [@sapphire/framework]. *)
Inductive Result (A : Type) : Type :=
| Ok (a : A)
| Err (e : JsError).
Arguments Ok {A} a.
Arguments Err {A} e.

(** [Result.from(() => f())] on the outcome of [f()]: an exception becomes
    [Err]. *)
Definition Result_from {A : Type} (r : outcome A) : Result A :=
  match r with
  | Returns a => Ok a
  | Throws e => Err e
  end.

Definition isErr {A : Type} (r : Result A) : bool :=
  match r with Ok _ => false | Err _ => true end.

Definition unwrapOr {A : Type} (r : Result A) (default : A) : A :=
  match r with Ok a => a | Err _ => default end.

End Js.
Export Js.

(** ** The [jsonwebtoken] interface *)

Module Jwt.

(** [Algorithm] of [jsonwebtoken]. *)
Inductive Algorithm : Type :=
| HS256 | HS384 | HS512
| RS256 | RS384 | RS512
| ES256 | ES384 | ES512
| PS256 | PS384 | PS512
| none.

Definition is_hmac (a : Algorithm) : bool :=
  match a with
  | HS256 | HS384 | HS512 => true
  | _ => false
  end.

(** The fields of [jwt.SignOptions] that [client.ts] sets. *)
Record SignOptions : Type := mkSignOptions {
  so_algorithm : Algorithm;
  so_expiresIn : string;
  so_issuer : option string
}.

(** [{ ...options, expiresIn: e }] *)
Definition with_expiresIn (o : SignOptions) (e : string) : SignOptions :=
  mkSignOptions (so_algorithm o) e (so_issuer o).

(** [options.issuer = i] *)
Definition with_issuer (o : SignOptions) (i : option string) : SignOptions :=
  mkSignOptions (so_algorithm o) (so_expiresIn o) i.

Definition is_digit (c : ascii) : bool :=
  let n := Z.of_nat (nat_of_ascii c) in (48 <=? n) && (n <=? 57).

Definition digit_value (c : ascii) : Z := Z.of_nat (nat_of_ascii c) - 48.

(** The leading decimal digits of [s] (continuing from [acc]) and what
    follows them. *)
Fixpoint leading_digits (acc : Z) (s : string) : Z * string :=
  match s with
  | String c rest =>
      if is_digit c then leading_digits (10 * acc + digit_value c) rest
      else (acc, s)
  | EmptyString => (acc, s)
  end.

Definition unit_ms (u : string) : option Z :=
  if String.eqb u "d" then Some 86400000
  else if String.eqb u "h" then Some 3600000
  else if String.eqb u "m" then Some 60000
  else if String.eqb u "s" then Some 1000
  else if String.eqb u "ms" then Some 1
  else if String.eqb u "" then Some 1
  else None.

(** The time-span strings of the [ms] package that [jsonwebtoken] reads
    [expiresIn] with, in milliseconds: a natural number followed by one of
    the short units [d], [h], [m], [s], [ms] (or by nothing).  [client.ts]
    passes ['4d'] and ['7d']. *)
Definition ms (s : string) : option Z :=
  match s with
  | String c _ =>
      if is_digit c then
        let (n, u) := leading_digits 0 s in
        match unit_ms u with
        | Some f => Some (n * f)
        | None => None
        end
      else None
  | EmptyString => None
  end.

(** The claim names RFC 7519 registers; [jsonwebtoken] reads or writes each
    of them. *)
Definition registered_claim (k : string) : bool :=
  existsb (String.eqb k) ["iss"; "sub"; "aud"; "exp"; "nbf"; "iat"; "jti"].

Definition no_registered_claims (fields : list (string * json)) : bool :=
  forallb (fun kv => negb (registered_claim (fst kv))) fields.

(** What [jwt.sign] adds to a payload that carries no registered claim of
    its own, signed at [now] (milliseconds, [Date.now()]) with a life of
    [span] milliseconds: issued-at and expiry in seconds, and the issuer when
    the options name one. *)
Definition signed_claims (o : SignOptions) (now span : Z) : list (string * json) :=
  [("iat", JNum (now / 1000)); ("exp", JNum (now / 1000 + span / 1000))]
  ++ match so_issuer o with
     | Some i => [("iss", JStr i)]
     | None => []
     end.

(** The two functions of [jsonwebtoken] that [client.ts] calls.  The type
    [token] of tokens is abstract: their wire format (base64url segments and
    a MAC) is the library's.  Both functions read the clock, passed as
    [Date.now()].
    - [jwt_sign payload secretOrPrivateKey options now]
    - [jwt_verify token secretOrPublicKey now] *)
Class JwtLib (token : Type) : Type := {
  jwt_sign : json -> string -> SignOptions -> Z -> outcome token;
  jwt_verify : token -> string -> Z -> outcome json
}.

(** The contract of the library for HMAC algorithms and a non-empty shared
    secret: an object payload without registered claims is signed, and the
    token verifies under the same secret, until it expires, to the payload
    followed by the claims [jwt.sign] added. *)
Class JwtLawful {token : Type} (J : JwtLib token) : Prop := {
  sign_accepts :
    forall fields key o now span,
      is_hmac (so_algorithm o) = true ->
      key <> "" ->
      no_registered_claims fields = true ->
      ms (so_expiresIn o) = Some span ->
      exists tok, jwt_sign (JObj fields) key o now = Returns tok;
  verify_sign :
    forall fields key o now span tok now',
      is_hmac (so_algorithm o) = true ->
      key <> "" ->
      no_registered_claims fields = true ->
      ms (so_expiresIn o) = Some span ->
      jwt_sign (JObj fields) key o now = Returns tok ->
      now' / 1000 < now / 1000 + span / 1000 ->
      jwt_verify tok key now' = Returns (JObj (fields ++ signed_claims o now span))
}.

(** *** What [jwt.sign] does with an object payload

    [jwt.sign] refuses a payload that has an [exp] beside [expiresIn], an
    [iss] beside the [issuer] option, or an [iat] or [nbf] that is not a
    number.  It takes a non-zero [iat] of the payload as the time of issue
    and the clock otherwise, writes that time to [iat], appends [exp] and,
    with the option, [iss].  Every other property, registered claims such as
    [sub] included, is signed as it is.  [jwt.verify] refuses a token whose
    [nbf] lies ahead or whose [exp] is reached. *)

Definition number_or_absent (v : option json) : bool :=
  match v with
  | None | Some (JNum _) => true
  | Some _ => false
  end.

Definition signable (o : SignOptions) (fields : list (string * json)) : bool :=
  negb (has_key "exp" fields)
  && number_or_absent (obj_get "iat" fields)
  && number_or_absent (obj_get "nbf" fields)
  && match so_issuer o with
     | Some _ => negb (has_key "iss" fields)
     | None => true
     end.

(** [payload.iat || Math.floor(Date.now() / 1000)] *)
Definition issued_at (fields : list (string * json)) (now : Z) : Z :=
  match obj_get "iat" fields with
  | Some (JNum n) => if n =? 0 then now / 1000 else n
  | _ => now / 1000
  end.

(** [o[k] = v] on the properties of an object: a property that is there
    keeps its place, a new one goes last. *)
Fixpoint obj_set (k : string) (v : json) (fields : list (string * json))
  : list (string * json) :=
  match fields with
  | [] => [(k, v)]
  | (k', v') :: rest =>
      if String.eqb k k' then (k, v) :: rest else (k', v') :: obj_set k v rest
  end.

(** The claims of the token [jwt.sign] makes of a payload it accepts. *)
Definition stamped (o : SignOptions) (fields : list (string * json)) (now span : Z)
  : list (string * json) :=
  let t := issued_at fields now in
  obj_set "iat" (JNum t) fields
  ++ [("exp", JNum (t + span / 1000))]
  ++ match so_issuer o with
     | Some i => [("iss", JStr i)]
     | None => []
     end.

(** The [nbf] of the payload, if any, is not ahead of the clock. *)
Definition active (fields : list (string * json)) (now : Z) : bool :=
  match obj_get "nbf" fields with
  | Some (JNum n) => n <=? now / 1000
  | _ => true
  end.

(** The contract of the library for HMAC algorithms and a non-empty shared
    secret, over every object payload [jwt.sign] accepts: the token verifies
    under the same secret, while it is active and not expired, to the claims
    [stamped] lists. *)
Class JwtContract {token : Type} (J : JwtLib token) : Prop := {
  contract_sign :
    forall fields key o now span,
      is_hmac (so_algorithm o) = true ->
      key <> "" ->
      signable o fields = true ->
      ms (so_expiresIn o) = Some span ->
      exists tok, jwt_sign (JObj fields) key o now = Returns tok;
  contract_verify :
    forall fields key o now span tok now',
      is_hmac (so_algorithm o) = true ->
      key <> "" ->
      signable o fields = true ->
      ms (so_expiresIn o) = Some span ->
      jwt_sign (JObj fields) key o now = Returns tok ->
      active fields now' = true ->
      now' / 1000 < issued_at fields now + span / 1000 ->
      jwt_verify tok key now' = Returns (JObj (stamped o fields now span))
}.

End Jwt.
Export Jwt.

(** ** A reference implementation of the interface

    Signing is symbolic: a token records the algorithm, the key and the
    claims it was made from, and only the same key verifies it.  It covers
    HMAC with a non-empty secret over the object payloads [jwt.sign] accepts
    and refuses everything else; the wording of its error messages is its
    own, except for those of [jwt.verify]. *)

Module HmacJwt.

Inductive sym_token : Type :=
| Signed (alg : Algorithm) (key : string) (claims : list (string * json))
| Malformed (text : string).

Definition JsonWebTokenError (msg : string) : JsError := mkError "JsonWebTokenError" msg.
Definition TokenExpiredError (msg : string) : JsError := mkError "TokenExpiredError" msg.

Definition sign (payload : json) (key : string) (o : SignOptions) (now : Z)
  : outcome sym_token :=
  match payload with
  | JObj fields =>
      if String.eqb key "" then Throws (mkError "Error" "secretOrPrivateKey must have a value")
      else if negb (is_hmac (so_algorithm o)) then
        Throws (mkError "Error" "unsupported algorithm for a shared secret")
      else if negb (signable o fields) then
        Throws (mkError "Error" "the payload has a claim that the options do not allow")
      else
        match ms (so_expiresIn o) with
        | Some span => Returns (Signed (so_algorithm o) key (stamped o fields now span))
        | None => Throws (mkError "Error" "expiresIn should be a timespan")
        end
  | _ => Throws (mkError "Error" "invalid expiresIn option for a non-object payload")
  end.

Definition expired (claims : list (string * json)) (now : Z) : bool :=
  match obj_get "exp" claims with
  | Some (JNum e) => e <=? now / 1000
  | _ => false
  end.

Definition verify (t : sym_token) (key : string) (now : Z) : outcome json :=
  match t with
  | Malformed _ => Throws (JsonWebTokenError "jwt malformed")
  | Signed alg k claims =>
      if String.eqb key "" then Throws (JsonWebTokenError "secret or public key must be provided")
      else if negb (is_hmac alg) then Throws (JsonWebTokenError "invalid algorithm")
      else if negb (String.eqb k key) then Throws (JsonWebTokenError "invalid signature")
      else if negb (active claims now) then Throws (mkError "NotBeforeError" "jwt not active")
      else if expired claims now then Throws (TokenExpiredError "jwt expired")
      else Returns (JObj claims)
  end.

Definition lib : JwtLib sym_token :=
  {| jwt_sign := sign; jwt_verify := verify |}.

End HmacJwt.

(** ** [packages/api-jwt/src/lib/client.ts] *)

Module ApiJwt.

(** The request [authOrRefresh] hands to [undici]'s [fetch]. *)
Record Request : Type := mkRequest {
  url : string;
  method : string;
  body : string;
  headers : list (string * string)
}.

(** What the manager reads of a [fetch] response: [result.ok], and how
    [await result.json()] ends (it rejects with a [SyntaxError] on a body
    that is not JSON). *)
Record Response : Type := mkResponse {
  ok : bool;
  json_body : outcome json
}.

(** [container.server.auth]: the OAuth2 application and the user-data
    fetcher, over the type [W] of the outside world. *)
Record ServerAuth (W : Type) : Type := mkServerAuth {
  auth_id : string;
  auth_secret : string;
  redirect : option string;
  fetchData : option json -> W -> outcome (option json) * W
}.
Arguments auth_id {W} _.
Arguments auth_secret {W} _.
Arguments redirect {W} _.
Arguments fetchData {W} _ _ _.

(** Everything the manager reaches outside itself, over the type [Ext] of
    the state of the outside world: the session store behind the hooks, the
    network, the wall clock.  An awaited call of a collaborator maps the
    world before the call to the way the call ends and the world after it.
    - [Date_now]: [Date.now()], milliseconds;
    - [fetch]: [fetch] of [undici] (it rejects on a network failure);
    - [stringify]: [stringify] of [querystring], over the properties of the
      object in insertion order ([None] is [undefined]);
    - [tokenURL]: [OAuth2Routes.tokenURL] of [discord-api-types];
    - [server_auth]: [container.server.auth], which is also
      [container.client.server.auth] ([None] is [undefined]). *)
Class Runtime (Ext : Type) : Type := {
  Date_now : Ext -> Z;
  fetch : Request -> Ext -> outcome Response * Ext;
  stringify : list (string * option string) -> string;
  tokenURL : string;
  server_auth : option (ServerAuth Ext)
}.

Inductive TokenKind : Type := KAccessToken | KRefreshToken.
Inductive GrantType : Type := GrantCode | GrantRefresh.

(** Modelled from the spec: [SessionUserData] is declared in [./types],
    which is not among the sources.  A payload has at least an [auth] object
    with [scope], [refresh_token] and [token_type]; [auth_others] and
    [others] are the remaining properties of [payload.auth] and of the
    payload. *)
Record AuthData : Type := mkAuthData {
  auth_scope : string;
  auth_refresh_token : string;
  auth_token_type : string;
  auth_others : list (string * json)
}.

Record SessionUserData : Type := mkSessionUserData {
  payload_auth : AuthData;
  others : list (string * json)
}.

Definition auth_fields (a : AuthData) : list (string * json) :=
  ("scope", JStr (auth_scope a)) :: ("refresh_token", JStr (auth_refresh_token a))
  :: ("token_type", JStr (auth_token_type a)) :: auth_others a.

(** The properties of a payload, as [jwt.sign] serialises them. *)
Definition payload_fields (p : SessionUserData) : list (string * json) :=
  ("auth", JObj (auth_fields (payload_auth p))) :: others p.

(** [{ data: { scope, refresh_token, token_type } }] of [payload.auth] *)
Definition refresh_fields (p : SessionUserData) : list (string * json) :=
  [("data", JObj [("scope", JStr (auth_scope (payload_auth p)));
                  ("refresh_token", JStr (auth_refresh_token (payload_auth p)));
                  ("token_type", JStr (auth_token_type (payload_auth p)))])].

Declare Scope js_scope.
Delimit Scope js_scope with js.

Section Manager.
Context {token Ext : Type} {J : JwtLib token} {R : Runtime Ext}.

(** An awaited call of an outside collaborator. *)
Definition Async (A : Type) : Type := Ext -> outcome A * Ext.

(** The record the [create] hook receives and the [get] hook returns. *)
Record Session : Type := mkSession {
  session_access_token : token;
  session_refresh_token : token;
  session_data : SessionUserData
}.

(** [PersistSessionsHooks]: each hook may be absent. *)
Record PersistSessionsHooks : Type := mkHooks {
  create : option (Session -> Async unit);
  get : option (token -> TokenKind -> Async (option Session));
  delete : option (token -> Async unit)
}.

Record ClientOptions : Type := mkClientOptions {
  options_issuer : option string;
  options_sessionsHooks : option PersistSessionsHooks;
  options_algorithm : option Algorithm
}.

(** The private fields of [Client]. *)
Record Client : Type := mkClient {
  issuer : option string;
  secret : string;
  algorithm : Algorithm;
  sessionsHooks : option PersistSessionsHooks
}.

(** [this.sessionsHooks?.create], [?.get], [?.delete] *)
Definition hook_create (c : Client) : option (Session -> Async unit) :=
  match sessionsHooks c with Some h => create h | None => None end.

Definition hook_get (c : Client) : option (token -> TokenKind -> Async (option Session)) :=
  match sessionsHooks c with Some h => get h | None => None end.

Definition hook_delete (c : Client) : option (token -> Async unit) :=
  match sessionsHooks c with Some h => delete h | None => None end.

(** The calls the manager makes to its collaborators. *)
Inductive Event : Type :=
| EvSign (payload : json) (key : string) (o : SignOptions)
| EvVerify (t : token) (key : string)
| EvCreate (s : Session)
| EvGet (t : token) (k : TokenKind)
| EvDelete (t : token)
| EvFetch (r : Request)
| EvFetchData (accessToken : option json)
| EvLogError (j : json).

(** The state a method runs in: the object, the outside world, and the calls
    made so far, oldest first. *)
Record State : Type := mkState {
  this : Client;
  ext : Ext;
  trace : list Event
}.

Definition M (A : Type) : Type := State -> outcome A * State.

Definition ret {A : Type} (a : A) : M A := fun s => (Returns a, s).

Definition throw {A : Type} (e : JsError) : M A := fun s => (Throws e, s).

Definition bind {A B : Type} (m : M A) (k : A -> M B) : M B :=
  fun s =>
    match m s with
    | (Returns a, s') => k a s'
    | (Throws e, s') => (Throws e, s')
    end.

Definition record (e : Event) (s : State) : State :=
  mkState (this s) (ext s) (trace s ++ [e]).

(** [await call]: the collaborator runs on the outside world, and the call
    is recorded. *)
Definition await {A : Type} (e : Event) (call : Async A) : M A :=
  fun s =>
    let (r, w) := call (ext s) in
    (r, mkState (this s) w (trace s ++ [e])).

Definition read_this : M Client := fun s => (Returns (this s), s).

(** [Date.now()].  The clock is read off the outside world, which only an
    awaited call changes: the synchronous steps of a method take no time
    here, where the program reads a running clock, so that a reading of the
    program may be later than the one here by the time those steps took. *)
Definition now : M Z := fun s => (Returns (Date_now (ext s)), s).

(** [jwt.sign(payload, key, options)] *)
Definition sign (payload : json) (key : string) (o : SignOptions) : M token :=
  fun s => (jwt_sign payload key o (Date_now (ext s)), record (EvSign payload key o) s).

(** [jwt.verify(token, key)] *)
Definition verify (t : token) (key : string) : M json :=
  fun s => (jwt_verify t key (Date_now (ext s)), record (EvVerify t key) s).

(** [Result.from(() => m)] *)
Definition Result_from_call {A : Type} (m : M A) : M (Result A) :=
  fun s => let (r, s') := m s in (Returns (Result_from r), s').

(** [container.logger.error(j)] *)
Definition logger_error (j : json) : M unit :=
  fun s => (Returns tt, record (EvLogError j) s).

(** The end of an awaited promise that is already settled. *)
Definition settled {A : Type} (r : outcome A) : M A := fun s => (r, s).

Local Notation "x <- m ;; k" := (bind m (fun x => k))
  (at level 61, m at next level, right associativity) : js_scope.
Local Notation "m ;;; k" := (bind m (fun _ => k))
  (at level 61, right associativity) : js_scope.
Local Open Scope js_scope.

(** [new Client(options)] *)
Definition new_Client (options : ClientOptions) : Client :=
  {| issuer := options_issuer options;
     sessionsHooks := options_sessionsHooks options;
     algorithm := match options_algorithm options with
                  | Some a => a
                  | None => HS512
                  end;
     secret := match server_auth with
               | Some a => auth_secret a
               | None => "NEKO-PLUGINS"
               end |}.

(** What [encrypt] returns. *)
Record IssuedTokenPair : Type := mkIssuedTokenPair {
  pair_access_token : token;
  pair_refresh_token : token;
  expires_in : Z;
  pair_token_type : string
}.

(** The options of the access token: [{ algorithm, expiresIn: '4d' }], with
    [issuer] added when [this.issuer] is truthy. *)
Definition sign_options (c : Client) : SignOptions :=
  let options := mkSignOptions (algorithm c) "4d" None in
  if truthy_string (issuer c) then with_issuer options (issuer c) else options.

Definition encrypt (payload : SessionUserData) : M IssuedTokenPair :=
  c <- read_this ;;
  let options := sign_options c in
  accessToken <- sign (JObj (payload_fields payload)) (secret c) options ;;
  refresToken <- sign (JObj (refresh_fields payload)) (secret c)
                      (with_expiresIn options "7d") ;;
  match hook_create c with
  | Some create =>
      let session := mkSession accessToken refresToken payload in
      await (EvCreate session) (create session)
  | None => ret tt
  end ;;;
  t <- now ;;
  ret (mkIssuedTokenPair accessToken refresToken (t + 345600000) "Bearer").

(** What [decrypt] returns when it is not [null]: [data], and the tokens
    that are set ([None] is an absent property). *)
Record Decrypted : Type := mkDecrypted {
  data : json;
  access_token : option token;
  refresh_token : option token
}.

(** [{ data, [type]: token }] *)
Definition keyed (d : json) (type : TokenKind) (t : token) : Decrypted :=
  match type with
  | KAccessToken => mkDecrypted d (Some t) None
  | KRefreshToken => mkDecrypted d None (Some t)
  end.

Definition decrypt (t : token) (type : TokenKind) : M (option Decrypted) :=
  c <- read_this ;;
  data <- Result_from_call (verify t (secret c)) ;;
  if isErr data then ret None
  else
    match hook_get c with
    | Some get =>
        session <- await (EvGet t type) (get t type) ;;
        match session with
        | None => ret None
        | Some session =>
            ret (Some (mkDecrypted (unwrapOr data JNull)
                                   (Some (session_access_token session))
                                   (Some (session_refresh_token session))))
        end
    | None => ret (Some (keyed (unwrapOr data JNull) type t))
    end.

Definition signOut (accessToken : token) : M bool :=
  c <- read_this ;;
  match hook_delete c with
  | Some delete => await (EvDelete accessToken) (delete accessToken)
  | None => ret tt
  end ;;;
  ret true.

(** The form [authOrRefresh] posts, property by property. *)
Definition token_form (a : ServerAuth Ext) (tokenOrCode : string)
    (grantType : GrantType) (redirectUri : option string)
  : list (string * option string) :=
  let data := [("client_id", Some (auth_id a)); ("client_secret", Some (auth_secret a))] in
  let data :=
    match grantType with
    | GrantCode =>
        (data ++ [("code", Some tokenOrCode);
                  ("grant_type", Some "authorization_code");
                  ("redirect_uri", match redirect a with
                                   | Some r => Some r
                                   | None => redirectUri
                                   end)])%list
    | GrantRefresh => data
    end in
  match grantType with
  | GrantRefresh =>
      (data ++ [("refresh_token", Some tokenOrCode); ("grant_type", Some "refresh_token")])%list
  | GrantCode => data
  end.

Definition token_request (a : ServerAuth Ext) (tokenOrCode : string)
    (grantType : GrantType) (redirectUri : option string) : Request :=
  mkRequest tokenURL "POST" (stringify (token_form a tokenOrCode grantType redirectUri))
            [("content-type", "application/x-www-form-urlencoded")].

(** [authOrRefresh]: the provider's answer, [JNull] for [null]. *)
Definition authOrRefresh (tokenOrCode : string) (grantType : GrantType)
    (redirectUri : option string) : M json :=
  match server_auth with
  | None => throw (TypeError "Cannot destructure property 'id' of 'container.server.auth'")
  | Some a =>
      let request := token_request a tokenOrCode grantType redirectUri in
      result <- await (EvFetch request) (fetch request) ;;
      json <- settled (json_body result) ;;
      if ok result then ret json
      else logger_error json ;;; ret JNull
  end.

(** What [auth] returns when it is not [null]. *)
Record Authenticated : Type := mkAuthenticated {
  authenticated_auth : json;
  authenticated_user : json
}.

Definition auth (code : string) (grantType : GrantType) (redirectUri : option string)
  : M (option Authenticated) :=
  authData <- authOrRefresh code grantType redirectUri ;;
  if isNullish authData then ret None
  else
    userData <- match server_auth with
                | Some a =>
                    let accessToken := prop "access_token" authData in
                    await (EvFetchData accessToken) (fetchData a accessToken)
                | None => ret None
                end ;;
    match userData with
    | Some user =>
        if isNullish user then ret None
        else ret (Some (mkAuthenticated authData user))
    | None => ret None
    end.

(** *** What a run shows *)

(** The two calls of [jwt.sign] in [encrypt], made in the state [s]. *)
Definition access_signature (payload : SessionUserData) (s : State) : outcome token :=
  jwt_sign (JObj (payload_fields payload)) (secret (this s)) (sign_options (this s))
           (Date_now (ext s)).

Definition refresh_signature (payload : SessionUserData) (s : State) : outcome token :=
  jwt_sign (JObj (refresh_fields payload)) (secret (this s))
           (with_expiresIn (sign_options (this s)) "7d") (Date_now (ext s)).

Definition signed_twice (payload : SessionUserData) (s : State) : list Event :=
  [EvSign (JObj (payload_fields payload)) (secret (this s)) (sign_options (this s));
   EvSign (JObj (refresh_fields payload)) (secret (this s))
          (with_expiresIn (sign_options (this s)) "7d")].

Definition is_sign (e : Event) : bool :=
  match e with EvSign _ _ _ => true | _ => false end.

Definition is_fetchData (e : Event) : bool :=
  match e with EvFetchData _ => true | _ => false end.

(** The calls of [container.server.auth.fetchData] in a trace. *)
Definition fetchData_calls (tr : list Event) : list Event :=
  filter is_fetchData tr.

(** A computation that leaves the fields of the manager as they were. *)
Definition keeps_this {A : Type} (m : M A) : Prop :=
  forall s, this (snd (m s)) = this s.

End Manager.

Notation "x <- m ;; k" := (bind m (fun x => k))
  (at level 61, m at next level, right associativity) : js_scope.
Notation "m ;;; k" := (bind m (fun _ => k))
  (at level 61, right associativity) : js_scope.

(** Unfolds the monad and the collaborator calls of a method. *)
Ltac run :=
  unfold bind, ret, throw, await, read_this, now, sign, verify, Result_from_call,
    logger_error, settled, record; simpl.

End ApiJwt.

(** ** [packages/influxdb/src/lib/utils/common.ts] *)

Module Influx.

(** [Number.isNaN] on a [number], an IEEE 754 double. *)
Definition Number_isNaN (x : spec_float) : bool :=
  match x with
  | S754_nan => true
  | _ => false
  end.

Section TryNumberParse.

(** [Number(value)] on a string: the language's string-to-number conversion. *)
Variable Number : string -> spec_float.

(** The argument and the result may be [undefined] ([None]). *)
Definition tryNumberParse (value : option string) : outcome (option spec_float) :=
  match value with
  | Some value =>
      let number := Number value in
      if Number_isNaN number then
        Throws (TypeError ("Could not parse " ++ value ++ " to a number"))
      else Returns (Some number)
  | None => Returns None
  end.

End TryNumberParse.

End Influx.

(** ** Concrete collaborators, to run the model on *)

Module Fixtures.
Import ApiJwt.

(** [key=value] pairs joined by [&]; the values used below need no
    escaping. *)
Fixpoint plain_stringify (form : list (string * option string)) : string :=
  match form with
  | [] => ""
  | [(k, v)] => k ++ "=" ++ match v with Some v => v | None => "" end
  | (k, v) :: rest =>
      k ++ "=" ++ match v with Some v => v | None => "" end ++ "&" ++ plain_stringify rest
  end.

(** A world that is only a wall clock, in milliseconds. *)
Definition runtime (f : Request -> Z -> outcome Response * Z)
    (a : option (ServerAuth Z)) : Runtime Z :=
  {| Date_now := fun w => w;
     fetch := f;
     stringify := plain_stringify;
     tokenURL := "https://discord.com/api/v10/oauth2/token";
     server_auth := a |}.

(** The network is down: [fetch] rejects. *)
Definition fetch_offline : Request -> Z -> outcome Response * Z :=
  fun _ w => (Throws (TypeError "fetch failed"), w).

(** The provider answers [r] after 20 ms. *)
Definition fetch_answers (r : Response) : Request -> Z -> outcome Response * Z :=
  fun _ w => (Returns r, w + 20).

(** A gateway error page: not a success, and no JSON in the body. *)
Definition bad_gateway : Response :=
  mkResponse false (Throws (SyntaxError "Unexpected token < in JSON at position 0")).

(** The provider refuses the grant. *)
Definition invalid_grant : Response :=
  mkResponse false (Returns (JObj [("error", JStr "invalid_grant")])).

Definition discord_app : ServerAuth Z :=
  mkServerAuth Z "1234" "app-secret" None
    (fun _ w => (Returns (Some (JObj [("id", JStr "42")])), w + 20)).

(** The network is down. *)
Definition offline : Runtime Z := runtime fetch_offline (Some discord_app).

(** The provider refuses every grant. *)
Definition refusing : Runtime Z :=
  runtime (fetch_answers invalid_grant) (Some discord_app).

(** A gateway in front of the provider fails. *)
Definition behind_bad_gateway : Runtime Z :=
  runtime (fetch_answers bad_gateway) (Some discord_app).

Definition sample_payload : SessionUserData :=
  mkSessionUserData
    (mkAuthData "identify" "provider-refresh" "Bearer"
       [("access_token", JStr "provider-access"); ("expires_in", JNum 604800)])
    [("user", JObj [("id", JStr "42")])].

Section Started.
Context {token Ext : Type} {R : Runtime Ext}.

Definition no_options : @ClientOptions token Ext := mkClientOptions None None None.

Definition with_hooks (h : @PersistSessionsHooks token Ext) : ClientOptions :=
  mkClientOptions None (Some h) None.

(** A manager as [new Client] makes it, in the world [w] with no call made
    yet. *)
Definition started (options : @ClientOptions token Ext) (w : Ext) : State :=
  mkState (new_Client options) w [].

End Started.

#[local] Existing Instance offline.

Definition garbage : HmacJwt.sym_token := HmacJwt.Malformed "not.a.jwt".

Definition stored : @Session HmacJwt.sym_token :=
  mkSession (HmacJwt.Malformed "stored-access") (HmacJwt.Malformed "stored-refresh")
    sample_payload.

(** A [get] hook that finds a stored session for every token. *)
Definition get_always : HmacJwt.sym_token -> TokenKind -> @Async Z (option Session) :=
  fun _ _ w => (Returns (Some stored), w + 5).

(** A [create] hook that takes a second to write the session. *)
Definition create_slow : @Session HmacJwt.sym_token -> @Async Z unit :=
  fun _ w => (Returns tt, w + 1000).

(** A [delete] hook whose store is unreachable. *)
Definition delete_failing : HmacJwt.sym_token -> @Async Z unit :=
  fun _ w => (Throws (mkError "Error" "session store unreachable"), w + 5).

Definition delete_working : HmacJwt.sym_token -> @Async Z unit :=
  fun _ w => (Returns tt, w + 5).

(** Managers on the symbolic library and the offline runtime, started at
    the same instant. *)
Definition clock0 : Z := 1700000000000.

Definition plain_manager : @State HmacJwt.sym_token Z := started no_options clock0.

Definition manager_with_get : @State HmacJwt.sym_token Z :=
  started (with_hooks (mkHooks None (Some get_always) None)) clock0.

Definition manager_with_slow_create : @State HmacJwt.sym_token Z :=
  started (with_hooks (mkHooks (Some create_slow) None None)) clock0.

Definition manager_with_failing_delete : @State HmacJwt.sym_token Z :=
  started (with_hooks (mkHooks None None (Some delete_failing))) clock0.

Definition manager_with_delete : @State HmacJwt.sym_token Z :=
  started (with_hooks (mkHooks None None (Some delete_working))) clock0.

(** [new Client({ issuer: '' })] *)
Definition manager_with_empty_issuer : @State HmacJwt.sym_token Z :=
  started (mkClientOptions (Some "") None None) clock0.

(** [new Client({ issuer: 'neko' })] *)
Definition manager_with_issuer : @State HmacJwt.sym_token Z :=
  started (mkClientOptions (Some "neko") None None) clock0.

(** A few conversions of [Number]; strings outside this table are not used
    in the examples. *)
Definition sample_Number (s : string) : spec_float :=
  if String.eqb s "" then S754_zero false
  else if String.eqb s "8" then S754_finite false 4503599627370496 (-49)
  else if String.eqb s "Infinity" then S754_infinity false
  else S754_nan.

End Fixtures.

(** ** The posted form, and more collaborators to run the model on *)

Module Wire.

(** [form[k]] on the properties of the posted object: [None] when the
    property is absent, [Some None] when it is set to [undefined]. *)
Fixpoint form_get (k : string) (form : list (string * option string))
  : option (option string) :=
  match form with
  | [] => None
  | (k', v) :: rest => if String.eqb k k' then Some v else form_get k rest
  end.

(** The calls of [fetch] and of [container.logger.error] among events. *)
Definition is_fetch {token : Type} (e : @ApiJwt.Event token) : bool :=
  match e with ApiJwt.EvFetch _ => true | _ => false end.

Definition is_log {token : Type} (e : @ApiJwt.Event token) : bool :=
  match e with ApiJwt.EvLogError _ => true | _ => false end.

End Wire.

Module MoreFixtures.
Import ApiJwt Fixtures.

(** The server has no [auth] section. *)
Definition unconfigured : Runtime Z := runtime fetch_offline None.

(** The provider grants the tokens. *)
Definition granted : json :=
  JObj [("access_token", JStr "provider-access"); ("token_type", JStr "Bearer");
        ("expires_in", JNum 604800); ("refresh_token", JStr "provider-refresh");
        ("scope", JStr "identify")].

Definition granting : Runtime Z :=
  runtime (fetch_answers (mkResponse true (Returns granted))) (Some discord_app).

(** An application whose user-data fetcher finds no profile. *)
Definition app_without_profile : ServerAuth Z :=
  mkServerAuth Z "1234" "app-secret" None (fun _ w => (Returns None, w + 20)).

Definition granting_without_profile : Runtime Z :=
  runtime (fetch_answers (mkResponse true (Returns granted))) (Some app_without_profile).

(** An application with a redirect URI of its own. *)
Definition app_with_redirect : ServerAuth Z :=
  mkServerAuth Z "1234" "app-secret" (Some "https://neko.example/callback")
    (fun _ w => (Returns (Some (JObj [("id", JStr "42")])), w + 20)).

Definition refusing_with_redirect : Runtime Z :=
  runtime (fetch_answers invalid_grant) (Some app_with_redirect).

(** A payload that already carries an expiry of its own. *)
Definition payload_with_exp : SessionUserData :=
  mkSessionUserData (payload_auth sample_payload) [("exp", JNum 1)].

(** A [create] hook whose store is unreachable. *)
Definition create_failing : @Session HmacJwt.sym_token -> @Async Z unit :=
  fun _ w => (Throws (mkError "Error" "session store unreachable"), w + 5).

(** A [get] hook that finds nothing. *)
Definition get_nothing
  : HmacJwt.sym_token -> TokenKind -> @Async Z (option (@Session HmacJwt.sym_token)) :=
  fun _ _ w => (Returns None, w + 5).

#[local] Existing Instance offline.

Definition manager_with_failing_create : @State HmacJwt.sym_token Z :=
  started (with_hooks (mkHooks (Some create_failing) None None)) clock0.

Definition manager_with_get_nothing : @State HmacJwt.sym_token Z :=
  started (with_hooks (mkHooks None (Some get_nothing) None)) clock0.

(** [new Client({})] on the server without an [auth] section. *)
Definition fallback_manager : @State HmacJwt.sym_token Z :=
  started (R := unconfigured) no_options clock0.

(** [new Client({ algorithm: 'RS256' })]: an asymmetric algorithm over the
    shared secret. *)
Definition manager_with_RS256 : @State HmacJwt.sym_token Z :=
  started (mkClientOptions None None (Some RS256)) clock0.

(** A server whose [auth] section has the empty string as its secret. *)
Definition app_with_empty_secret : ServerAuth Z :=
  mkServerAuth Z "1234" "" None (fun _ w => (Returns None, w + 20)).

Definition secretless : Runtime Z := runtime fetch_offline (Some app_with_empty_secret).

Definition manager_without_secret : @State HmacJwt.sym_token Z :=
  started (R := secretless) no_options clock0.

(** Payloads with registered claims of their own: a subject; a time of
    issue in 1970; a start in 2100. *)
Definition payload_with_sub : SessionUserData :=
  mkSessionUserData (payload_auth sample_payload)
    [("user", JObj [("id", JStr "42")]); ("sub", JStr "42")].

Definition payload_with_stale_iat : SessionUserData :=
  mkSessionUserData (payload_auth sample_payload) [("iat", JNum 1)].

Definition payload_with_future_nbf : SessionUserData :=
  mkSessionUserData (payload_auth sample_payload) [("nbf", JNum 4102444800)].

End MoreFixtures.

(** * Properties *)

(** ** Property lookup *)

Module JsFacts.

Lemma obj_get_app_absent :
  forall k (fields rest : list (string * json)),
    has_key k fields = false ->
    obj_get k (fields ++ rest) = obj_get k rest.
Proof.
  intros k fields rest. unfold has_key.
  induction fields as [|[k' v] fields IH]; simpl; [reflexivity|].
  destruct (String.eqb k k'); [discriminate|exact IH].
Qed.

Lemma obj_get_app_present :
  forall k v (fields rest : list (string * json)),
    obj_get k fields = Some v ->
    obj_get k (fields ++ rest) = Some v.
Proof.
  intros k v fields rest.
  induction fields as [|[k' v'] fields IH]; simpl; [discriminate|].
  destruct (String.eqb k k'); [trivial|exact IH].
Qed.

End JsFacts.

(** ** The reference implementation keeps the contract *)

Module HmacJwtFacts.
Import HmacJwt JsFacts.
Local Open Scope list_scope.

Lemma no_registered_claims_exp :
  forall fields, no_registered_claims fields = true -> has_key "exp" fields = false.
Proof.
  unfold no_registered_claims, has_key.
  induction fields as [|[k v] fields IH]; intros H; [reflexivity|].
  cbn [forallb fst] in H. apply andb_prop in H. destruct H as [Hk Hrest].
  cbn [obj_get].
  destruct (String.eqb_spec "exp" k) as [<-|_].
  - discriminate Hk.
  - exact (IH Hrest).
Qed.

Lemma no_registered_claims_absent :
  forall k fields,
    registered_claim k = true ->
    no_registered_claims fields = true ->
    obj_get k fields = None.
Proof.
  intros k fields Hk. unfold no_registered_claims.
  induction fields as [|[k' v] fields IH]; intros H; [reflexivity|].
  cbn [forallb fst] in H. apply andb_prop in H. destruct H as [Hk' Hrest].
  cbn [obj_get].
  destruct (String.eqb_spec k k') as [<-|_].
  - rewrite Hk in Hk'. discriminate Hk'.
  - exact (IH Hrest).
Qed.

Lemma obj_get_app :
  forall k (fields rest : list (string * json)),
    obj_get k (fields ++ rest)
    = match obj_get k fields with
      | Some v => Some v
      | None => obj_get k rest
      end.
Proof.
  intros k fields rest.
  induction fields as [|[k' v] fields IH]; cbn [app obj_get]; [reflexivity|].
  destruct (String.eqb k k'); [reflexivity|exact IH].
Qed.

Lemma obj_set_absent :
  forall k v fields,
    obj_get k fields = None -> obj_set k v fields = fields ++ [(k, v)].
Proof.
  intros k v fields.
  induction fields as [|[k' v'] fields IH]; cbn [obj_get obj_set app]; [reflexivity|].
  destruct (String.eqb k k'); [discriminate|].
  intros H. rewrite (IH H). reflexivity.
Qed.

Lemma obj_get_obj_set_other :
  forall k k' v fields,
    k <> k' -> obj_get k (obj_set k' v fields) = obj_get k fields.
Proof.
  intros k k' v fields Hne.
  induction fields as [|[k'' v''] fields IH]; cbn [obj_get obj_set].
  - destruct (String.eqb_spec k k'); [contradiction|reflexivity].
  - destruct (String.eqb_spec k' k'') as [<-|Hk']; cbn [obj_get].
    + destruct (String.eqb_spec k k'); [contradiction|reflexivity].
    + destruct (String.eqb k k''); [reflexivity|exact IH].
Qed.

Lemma obj_get_obj_set_same :
  forall k v fields, obj_get k (obj_set k v fields) = Some v.
Proof.
  intros k v fields.
  induction fields as [|[k' v'] fields IH]; cbn [obj_get obj_set].
  - rewrite String.eqb_refl. reflexivity.
  - destruct (String.eqb_spec k k') as [<-|Hk]; cbn [obj_get].
    + rewrite String.eqb_refl. reflexivity.
    + destruct (String.eqb_spec k k'); [contradiction|exact IH].
Qed.

(** A payload without registered claims is accepted, and stamped by
    appending. *)
Lemma unregistered_signable :
  forall o fields, no_registered_claims fields = true -> signable o fields = true.
Proof.
  intros o fields H. unfold signable, has_key.
  rewrite (no_registered_claims_absent "exp" fields eq_refl H).
  rewrite (no_registered_claims_absent "iat" fields eq_refl H).
  rewrite (no_registered_claims_absent "nbf" fields eq_refl H).
  rewrite (no_registered_claims_absent "iss" fields eq_refl H).
  destruct (so_issuer o); reflexivity.
Qed.

Lemma unregistered_stamped :
  forall o fields now span,
    no_registered_claims fields = true ->
    stamped o fields now span = fields ++ signed_claims o now span.
Proof.
  intros o fields t span H. unfold stamped, issued_at, signed_claims.
  pose proof (no_registered_claims_absent "iat" fields eq_refl H) as Hi.
  rewrite Hi, (obj_set_absent "iat" _ fields Hi), <- app_assoc. reflexivity.
Qed.

Lemma unregistered_active :
  forall fields now, no_registered_claims fields = true -> active fields now = true.
Proof.
  intros fields t H. unfold active.
  rewrite (no_registered_claims_absent "nbf" fields eq_refl H). reflexivity.
Qed.

(** The claims of a token keep the [nbf] of the payload and carry the [exp]
    that was computed. *)
Lemma stamped_nbf :
  forall o fields now span,
    obj_get "nbf" (stamped o fields now span) = obj_get "nbf" fields.
Proof.
  intros o fields t span. unfold stamped.
  rewrite obj_get_app, (obj_get_obj_set_other "nbf" "iat") by discriminate.
  destruct (obj_get "nbf" fields); [reflexivity|].
  destruct (so_issuer o); reflexivity.
Qed.

Lemma stamped_exp :
  forall o fields now span,
    signable o fields = true ->
    obj_get "exp" (stamped o fields now span)
    = Some (JNum (issued_at fields now + span / 1000)).
Proof.
  intros o fields t span H. unfold stamped.
  rewrite obj_get_app, (obj_get_obj_set_other "exp" "iat") by discriminate.
  unfold signable, has_key in H.
  destruct (obj_get "exp" fields); [discriminate H|reflexivity].
Qed.

(** The claims of a token hold every property of the payload with its
    value, but for an [iat] of [0], which the time of issue replaces. *)
Lemma stamped_keeps :
  forall o fields now span k v,
    signable o fields = true ->
    obj_get k fields = Some v ->
    (k, v) <> ("iat"%string, JNum 0) ->
    obj_get k (stamped o fields now span) = Some v.
Proof.
  intros o fields t span k v Hs Hget Hne. unfold stamped.
  rewrite obj_get_app.
  destruct (String.eqb_spec k "iat") as [->|Hk].
  - rewrite obj_get_obj_set_same. unfold issued_at. rewrite Hget.
    unfold signable in Hs. rewrite Hget in Hs.
    destruct v as [| |n| | |]; try (rewrite !andb_false_r in Hs; discriminate Hs).
    destruct (Z.eqb_spec n 0) as [->|_]; [contradiction Hne; reflexivity|reflexivity].
  - rewrite (obj_get_obj_set_other k "iat" _ fields Hk), Hget. reflexivity.
Qed.

(** Symbolic signing and verification satisfy the finer contract. *)
Lemma lib_contract : JwtContract lib.
Proof.
  split; simpl; unfold sign, verify.
  - intros fields key o t span Hh Hk Hf Hs.
    apply String.eqb_neq in Hk. rewrite Hk, Hh, Hf, Hs. simpl. eauto.
  - intros fields key o t span tok t' Hh Hk Hf Hs Hsign Hact Hfresh.
    apply String.eqb_neq in Hk. rewrite Hk, Hh, Hf, Hs in Hsign. simpl in Hsign.
    injection Hsign as <-.
    rewrite Hk, Hh, String.eqb_refl. simpl.
    unfold active, expired in *. rewrite stamped_nbf, (stamped_exp _ _ _ _ Hf), Hact.
    simpl.
    destruct (Z.leb_spec (issued_at fields t + span / 1000) (t' / 1000));
      [lia|reflexivity].
Qed.

(** Symbolic signing and verification satisfy the library contract. *)
Lemma lib_lawful : JwtLawful lib.
Proof.
  split.
  - intros fields key o t span Hh Hk Hf Hs.
    exact (contract_sign (JwtContract := lib_contract) fields key o t span Hh Hk
             (unregistered_signable o fields Hf) Hs).
  - intros fields key o t span tok t' Hh Hk Hf Hs Hsign Hfresh.
    rewrite <- (unregistered_stamped o fields t span Hf).
    apply (contract_verify (JwtContract := lib_contract) fields key o t span tok t' Hh Hk
             (unregistered_signable o fields Hf) Hs Hsign
             (unregistered_active fields t' Hf)).
    unfold issued_at.
    rewrite (no_registered_claims_absent "iat" fields eq_refl Hf). exact Hfresh.
Qed.

End HmacJwtFacts.

(** ** The session-token manager *)

Module ClientSpec.
Import ApiJwt.
Local Open Scope js_scope.
Local Open Scope list_scope.

Section Decrypt.
Context {token Ext : Type} {J : JwtLib token} {R : Runtime Ext}.

(** What [decrypt] does up to the check of [data.isErr()]: one call of
    [jwt.verify] under the configured secret. *)
Lemma decrypt_rejected :
  forall (t : token) (type : TokenKind) (s : State) (e : JsError),
    jwt_verify t (secret (this s)) (Date_now (ext s)) = Throws e ->
    decrypt t type s = (Returns None, record (EvVerify t (secret (this s))) s).
Proof.
  intros t type s e Hv. unfold decrypt. run. rewrite Hv. reflexivity.
Qed.

(** C4: a token whose verification against the configured secret fails makes
    [decrypt] resolve to [null], for both kinds of token and whatever hooks
    are configured; nothing is thrown, and the only call made is the one to
    [jwt.verify]. *)
Theorem decrypt_invalid_token_is_null :
  forall (t : token) (type : TokenKind) (s : State) (e : JsError),
    jwt_verify t (secret (this s)) (Date_now (ext s)) = Throws e ->
    fst (decrypt t type s) = Returns None
    /\ ext (snd (decrypt t type s)) = ext s
    /\ trace (snd (decrypt t type s)) = trace s ++ [EvVerify t (secret (this s))].
Proof.
  intros t type s e Hv. rewrite (decrypt_rejected t type s e Hv).
  repeat split.
Qed.

(** C1, as amended: with a [get] hook configured, a token whose verification
    fails still makes [decrypt] resolve to [null], and the hook is not
    consulted; when verification succeeds and the hook returns a stored
    session, [decrypt] resolves to the decoded payload with the two tokens of
    the hook's record. *)
Theorem decrypt_with_get_hook :
  forall (t : token) (type : TokenKind) (s : State) get,
    hook_get (this s) = Some get ->
    (forall e,
        jwt_verify t (secret (this s)) (Date_now (ext s)) = Throws e ->
        decrypt t type s = (Returns None, record (EvVerify t (secret (this s))) s))
    /\ (forall decoded session w,
        jwt_verify t (secret (this s)) (Date_now (ext s)) = Returns decoded ->
        get t type (ext s) = (Returns (Some session), w) ->
        decrypt t type s =
          (Returns (Some (mkDecrypted decoded
                                      (Some (session_access_token session))
                                      (Some (session_refresh_token session)))),
           mkState (this s) w
                   (trace s ++ [EvVerify t (secret (this s))] ++ [EvGet t type]))).
Proof.
  intros t type s get Hg. split.
  - intros e Hv. exact (decrypt_rejected t type s e Hv).
  - intros decoded session w Hv Hget. unfold decrypt. run.
    rewrite Hv. cbn. rewrite Hg. cbn. rewrite Hget. cbn.
    rewrite <- app_assoc. reflexivity.
Qed.

End Decrypt.

Import Fixtures MoreFixtures.
#[local] Existing Instance HmacJwt.lib.
#[local] Existing Instance offline.

(** C4 on a malformed refresh token, with a manager that has no hooks. *)
Lemma decrypt_invalid_token_is_null_witness :
  jwt_verify garbage (secret (this plain_manager)) (Date_now (ext plain_manager))
  = Throws (HmacJwt.JsonWebTokenError "jwt malformed")
  /\ fst (decrypt garbage KRefreshToken plain_manager) = Returns None
  /\ ext (snd (decrypt garbage KRefreshToken plain_manager)) = ext plain_manager
  /\ trace (snd (decrypt garbage KRefreshToken plain_manager))
     = trace plain_manager ++ [EvVerify garbage (secret (this plain_manager))].
Proof.
  split; [reflexivity|].
  exact (decrypt_invalid_token_is_null garbage KRefreshToken plain_manager
           (HmacJwt.JsonWebTokenError "jwt malformed") eq_refl).
Defined.

(** A token signed under another secret and an expired one end the same
    way. *)
Example decrypt_rejects_forged_and_expired :
  fst (decrypt (HmacJwt.Signed HS512 "other-secret" [("exp"%string, JNum 1800000000)])
               KAccessToken plain_manager) = Returns None
  /\ fst (decrypt (HmacJwt.Signed HS512 "app-secret" [("exp"%string, JNum 1600000000)])
                  KRefreshToken plain_manager) = Returns None.
Proof. split; reflexivity. Qed.

(** C1 as stated fails: the token does not verify, the configured [get]
    hook would return a stored session for it, and [decrypt] resolves to
    [null], not to the session with [data: null]. *)
Lemma decrypt_failed_token_not_looked_up :
  jwt_verify garbage (secret (this manager_with_get)) (Date_now (ext manager_with_get))
  = Throws (HmacJwt.JsonWebTokenError "jwt malformed")
  /\ hook_get (this manager_with_get) = Some get_always
  /\ fst (get_always garbage KAccessToken (ext manager_with_get)) = Returns (Some stored)
  /\ fst (decrypt garbage KAccessToken manager_with_get) = Returns None
  /\ fst (decrypt garbage KAccessToken manager_with_get)
     <> Returns (Some (mkDecrypted JNull (Some (session_access_token stored))
                                   (Some (session_refresh_token stored)))).
Proof.
  repeat split; try reflexivity. discriminate.
Qed.

(** The amended C1 on the same manager and token. *)
Lemma decrypt_with_get_hook_witness :
  hook_get (this manager_with_get) = Some get_always
  /\ decrypt garbage KAccessToken manager_with_get
     = (Returns None,
        record (EvVerify garbage (secret (this manager_with_get))) manager_with_get).
Proof.
  split; [reflexivity|].
  exact (proj1 (decrypt_with_get_hook garbage KAccessToken manager_with_get
                  get_always eq_refl)
               (HmacJwt.JsonWebTokenError "jwt malformed") eq_refl).
Defined.

(** The second half of the amended C1: the manager reads back a token it
    signed itself, and the result carries the tokens of the stored session,
    not the token passed in. *)
Example decrypt_with_get_hook_found :
  exists pair result,
    fst (encrypt sample_payload manager_with_get) = Returns pair
    /\ fst (decrypt (pair_access_token pair) KAccessToken manager_with_get)
       = Returns (Some result)
    /\ access_token result = Some (session_access_token stored)
    /\ refresh_token result = Some (session_refresh_token stored)
    /\ prop "auth" (data result) = obj_get "auth" (payload_fields sample_payload).
Proof.
  eexists. eexists. split; [vm_compute; reflexivity|].
  split; [vm_compute; reflexivity|]. repeat split.
Qed.

Section Encrypt.
Context {token Ext : Type} {J : JwtLib token} {R : Runtime Ext}.

(** [encrypt] without a [create] hook, when both signatures succeed. *)
Lemma encrypt_without_create :
  forall payload s a r,
    hook_create (this s) = None ->
    access_signature payload s = Returns a ->
    refresh_signature payload s = Returns r ->
    encrypt payload s =
      (Returns (mkIssuedTokenPair a r (Date_now (ext s) + 345600000) "Bearer"),
       mkState (this s) (ext s) (trace s ++ signed_twice payload s)).
Proof.
  unfold access_signature, refresh_signature, signed_twice.
  intros payload s a r Hc Ha Hr. unfold encrypt. run.
  rewrite Ha. cbn. rewrite Hr. cbn. rewrite Hc. cbn.
  rewrite <- app_assoc. reflexivity.
Qed.

(** Everything that is known when [encrypt] resolves: both signatures
    succeeded and are the tokens of the pair, the [create] hook, if any,
    completed, and the clock was read afterwards. *)
Lemma encrypt_returns_inv :
  forall payload s pair s',
    encrypt payload s = (Returns pair, s') ->
    access_signature payload s = Returns (pair_access_token pair)
    /\ refresh_signature payload s = Returns (pair_refresh_token pair)
    /\ expires_in pair = Date_now (ext s') + 345600000
    /\ pair_token_type pair = "Bearer"%string
    /\ this s' = this s
    /\ ((hook_create (this s) = None /\ ext s' = ext s
         /\ trace s' = trace s ++ signed_twice payload s)
        \/ (exists create,
               hook_create (this s) = Some create
               /\ create (mkSession (pair_access_token pair) (pair_refresh_token pair) payload)
                         (ext s) = (Returns tt, ext s')
               /\ trace s' = trace s ++ signed_twice payload s
                             ++ [EvCreate (mkSession (pair_access_token pair)
                                                     (pair_refresh_token pair) payload)])).
Proof.
  unfold access_signature, refresh_signature, signed_twice.
  intros payload s pair s'. unfold encrypt. run.
  destruct (jwt_sign (JObj (payload_fields payload)) _ _ _) as [a|e]; cbn; [|discriminate].
  destruct (jwt_sign (JObj (refresh_fields payload)) _ _ _) as [r|e]; cbn; [|discriminate].
  destruct (hook_create (this s)) as [create|] eqn:Hc; cbn.
  - destruct (create (mkSession a r payload) (ext s)) as [[[]|e] w] eqn:Hw; cbn;
      [|discriminate].
    intros H. injection H as <- <-. cbn.
    repeat split. right. exists create. rewrite Hw, <- !app_assoc. repeat split.
  - intros H. injection H as <- <-. cbn.
    repeat split. left. rewrite <- !app_assoc. repeat split.
Qed.

(** The options of the access token, field by field. *)
Lemma sign_options_eq :
  forall c : @Client token Ext,
    sign_options c
    = mkSignOptions (algorithm c) "4d"
                    (if truthy_string (issuer c) then issuer c else None).
Proof.
  intros c. unfold sign_options, with_issuer.
  destruct (truthy_string (issuer c)); reflexivity.
Qed.

(** The first thing [encrypt] does, whatever follows: it calls [jwt.sign]
    on the whole payload. *)
Lemma encrypt_first_call :
  forall payload s,
    exists tail,
      trace (snd (encrypt payload s))
      = trace s
        ++ EvSign (JObj (payload_fields payload)) (secret (this s)) (sign_options (this s))
           :: tail.
Proof.
  intros payload s. unfold encrypt. run.
  destruct (jwt_sign (JObj (payload_fields payload)) _ _ _) as [a|e]; cbn;
    [|exists []; reflexivity].
  destruct (jwt_sign (JObj (refresh_fields payload)) _ _ _) as [r|e]; cbn;
    [|eexists; rewrite <- app_assoc; reflexivity].
  destruct (hook_create (this s)) as [create|]; cbn.
  - destruct (create (mkSession a r payload) (ext s)) as [[[]|e] w]; cbn;
      eexists; rewrite <- !app_assoc; reflexivity.
  - eexists; rewrite <- !app_assoc; reflexivity.
Qed.

(** C5, as amended: the pair [encrypt] resolves to has [token_type]
    ["Bearer"] and an [expires_in] of exactly 345600000 ms (four days) past
    the reading of the clock taken when the pair is built, in the state
    [encrypt] ends in: by then both tokens are signed and the [create] hook,
    when one is configured, has been called and awaited. *)
Theorem encrypt_expires_in :
  forall payload s pair s',
    encrypt payload s = (Returns pair, s') ->
    pair_token_type pair = "Bearer"%string
    /\ expires_in pair = Date_now (ext s') + 345600000
    /\ 345600000 = 4 * 24 * 60 * 60 * 1000
    /\ exists tail,
         trace s' = trace s ++ signed_twice payload s ++ tail
         /\ (hook_create (this s) = None -> tail = [])
         /\ (forall create,
               hook_create (this s) = Some create ->
               tail = [EvCreate (mkSession (pair_access_token pair)
                                           (pair_refresh_token pair) payload)]).
Proof.
  intros payload s pair s' H.
  destruct (encrypt_returns_inv payload s pair s' H)
    as (_ & _ & He & Ht & _ & [(Hc & _ & Htr)|(create & Hc & _ & Htr)]).
  - repeat split; try assumption.
    exists []. rewrite app_nil_r. repeat split; try assumption.
    intros create' Hc'. rewrite Hc in Hc'. discriminate.
  - repeat split; try assumption.
    eexists. split; [exact Htr|]. split.
    + intros Hc'. rewrite Hc in Hc'. discriminate.
    + intros create' _. reflexivity.
Qed.

(** C6, as amended: [encrypt] first signs the whole payload; when it
    resolves, its access token is the signature of the whole payload with
    [expiresIn: '4d'], its refresh token is the signature of
    [{data: {scope, refresh_token, token_type}}] of [payload.auth] with
    [expiresIn: '7d'], both under the configured secret and algorithm and
    both with the same issuer option, which is set exactly when the
    configured issuer is a non-empty string; these two are the only calls of
    [jwt.sign]. *)
Theorem encrypt_signatures :
  forall payload s,
    let c := this s in
    let iss := if truthy_string (issuer c) then issuer c else None in
    let access := JObj (payload_fields payload) in
    let refresh :=
      JObj [("data"%string,
             JObj [("scope"%string, JStr (auth_scope (payload_auth payload)));
                   ("refresh_token"%string, JStr (auth_refresh_token (payload_auth payload)));
                   ("token_type"%string, JStr (auth_token_type (payload_auth payload)))])] in
    let o4 := mkSignOptions (algorithm c) "4d" iss in
    let o7 := mkSignOptions (algorithm c) "7d" iss in
    (exists tail, trace (snd (encrypt payload s)) = trace s ++ EvSign access (secret c) o4 :: tail)
    /\ (iss <> None <-> exists i, issuer c = Some i /\ i <> ""%string)
    /\ ms "4d" = Some (4 * 86400000)
    /\ ms "7d" = Some (7 * 86400000)
    /\ (forall pair s',
          encrypt payload s = (Returns pair, s') ->
          jwt_sign access (secret c) o4 (Date_now (ext s)) = Returns (pair_access_token pair)
          /\ jwt_sign refresh (secret c) o7 (Date_now (ext s)) = Returns (pair_refresh_token pair)
          /\ exists tail,
               trace s' = trace s ++ [EvSign access (secret c) o4; EvSign refresh (secret c) o7]
                          ++ tail
               /\ existsb is_sign tail = false).
Proof.
  intros payload s c iss access refresh o4 o7.
  assert (Ho4 : sign_options c = o4) by apply sign_options_eq.
  assert (Ho7 : with_expiresIn (sign_options c) "7d" = o7) by (rewrite Ho4; reflexivity).
  split; [|split; [|split; [|split]]].
  - destruct (encrypt_first_call payload s) as [tail Ht].
    exists tail. rewrite Ht. subst c. rewrite Ho4. reflexivity.
  - subst iss c. destruct (issuer (this s)) as [i|]; cbn.
    + destruct (String.eqb_spec i ""); cbn; split.
      * intros Hn. now contradiction Hn.
      * intros (i' & Hi & Hne). injection Hi as <-. contradiction.
      * intros _. exists i. split; [reflexivity|assumption].
      * discriminate.
    + split; [intros Hn; now contradiction Hn|intros (i & Hi & _); discriminate].
  - reflexivity.
  - reflexivity.
  - intros pair s' H.
    destruct (encrypt_returns_inv payload s pair s' H)
      as (Ha & Hr & _ & _ & _ & Htr).
    unfold access_signature in Ha. unfold refresh_signature in Hr.
    fold c in Ha, Hr. rewrite Ho4 in Ha. rewrite Ho7 in Hr.
    split; [exact Ha|split; [exact Hr|]].
    unfold signed_twice in Htr. fold c in Htr. rewrite Ho7, Ho4 in Htr.
    destruct Htr as [(_ & _ & Ht)|(create & _ & _ & Ht)].
    + exists []. rewrite app_nil_r. split; [exact Ht|reflexivity].
    + eexists. split; [exact Ht|reflexivity].
Qed.

End Encrypt.

(** C5 as stated fails: the [create] hook takes a second, and [expires_in]
    is four days past the end of that second, not past the invocation. *)
Lemma encrypt_expires_in_after_slow_create :
  exists pair,
    fst (encrypt sample_payload manager_with_slow_create) = Returns pair
    /\ expires_in pair = Date_now (ext manager_with_slow_create) + 1000 + 345600000
    /\ expires_in pair <> Date_now (ext manager_with_slow_create) + 345600000.
Proof.
  eexists. split; [vm_compute; reflexivity|].
  split; [reflexivity|]. vm_compute. discriminate.
Qed.

(** The amended C5 on the manager with the slow [create] hook. *)
Lemma encrypt_expires_in_witness :
  exists pair s',
    encrypt sample_payload manager_with_slow_create = (Returns pair, s')
    /\ pair_token_type pair = "Bearer"%string
    /\ expires_in pair = Date_now (ext s') + 345600000.
Proof.
  destruct (encrypt sample_payload manager_with_slow_create) as [[pair|e] s'] eqn:H.
  - exists pair, s'. split; [reflexivity|].
    destruct (encrypt_expires_in sample_payload manager_with_slow_create pair s' H)
      as (Ht & He & _).
    split; assumption.
  - apply (f_equal fst) in H. vm_compute in H. discriminate H.
Defined.

(** C6 as stated fails: an issuer is configured, the empty string, and
    neither signature carries an issuer. *)
Lemma encrypt_empty_issuer_not_attached :
  issuer (this manager_with_empty_issuer) = Some ""%string
  /\ trace (snd (encrypt sample_payload manager_with_empty_issuer))
     = [EvSign (JObj (payload_fields sample_payload)) "app-secret"
               (mkSignOptions HS512 "4d" None);
        EvSign (JObj (refresh_fields sample_payload)) "app-secret"
               (mkSignOptions HS512 "7d" None)]
  /\ exists pair claims,
       fst (encrypt sample_payload manager_with_empty_issuer) = Returns pair
       /\ pair_access_token pair = HmacJwt.Signed HS512 "app-secret" claims
       /\ obj_get "iss" claims = None.
Proof.
  split; [reflexivity|]. split; [vm_compute; reflexivity|].
  eexists. eexists.
  split; [vm_compute; reflexivity|]. split; reflexivity.
Qed.

(** The amended C6 on a manager whose issuer is ["neko"]. *)
Lemma encrypt_signatures_witness :
  exists pair s',
    encrypt sample_payload manager_with_issuer = (Returns pair, s')
    /\ jwt_sign (JObj (payload_fields sample_payload)) "app-secret"
                (mkSignOptions HS512 "4d" (Some "neko"%string)) clock0
       = Returns (pair_access_token pair)
    /\ jwt_sign (JObj (refresh_fields sample_payload)) "app-secret"
                (mkSignOptions HS512 "7d" (Some "neko"%string)) clock0
       = Returns (pair_refresh_token pair).
Proof.
  destruct (encrypt sample_payload manager_with_issuer) as [[pair|e] s'] eqn:H.
  - exists pair, s'. split; [reflexivity|].
    destruct (proj2 (proj2 (proj2 (proj2
      (encrypt_signatures sample_payload manager_with_issuer)))) pair s' H)
      as (Ha & Hr & _).
    split; [exact Ha|exact Hr].
  - apply (f_equal fst) in H. vm_compute in H. discriminate H.
Defined.

Section RoundTrip.
Context {token Ext : Type} {J : JwtLib token} {L : JwtLawful J} {R : Runtime Ext}.

Lemma payload_fields_unregistered :
  forall payload,
    no_registered_claims (others payload) = true ->
    no_registered_claims (payload_fields payload) = true.
Proof.
  intros payload H. unfold payload_fields, no_registered_claims in *.
  cbn [forallb fst]. rewrite H. reflexivity.
Qed.

End RoundTrip.

Section RoundTripContract.
Context {token Ext : Type} {J : JwtLib token} {C : JwtContract J} {R : Runtime Ext}.

(** C2, as amended: with no [create] and no [get] hook, an HMAC algorithm
    and a non-empty secret, [encrypt] resolves to a pair for every payload
    that [jwt.sign] accepts beside the options of the access token (no [exp]
    of its own, no [iss] beside a configured issuer, [iat] and [nbf] numbers
    if there); and [decrypt] of the pair's access token, by the same manager
    while the token is active and less than four days have passed since its
    time of issue, resolves to a result that is not [null], whose
    [access_token] is the token passed in and whose [data] is an object
    holding every property of the payload with its value, an [iat] of [0]
    apart. *)
Theorem encrypt_then_decrypt :
  forall (payload : SessionUserData) (s : @State token Ext),
    hook_create (this s) = None ->
    hook_get (this s) = None ->
    is_hmac (algorithm (this s)) = true ->
    secret (this s) <> ""%string ->
    signable (sign_options (this s)) (payload_fields payload) = true ->
    exists pair s1,
      encrypt payload s = (Returns pair, s1)
      /\ this s1 = this s
      /\ forall s2 : State,
           this s2 = this s ->
           active (payload_fields payload) (Date_now (ext s2)) = true ->
           Date_now (ext s2) / 1000
           < issued_at (payload_fields payload) (Date_now (ext s)) + 345600 ->
           exists fields s3,
             decrypt (pair_access_token pair) KAccessToken s2
             = (Returns (Some (mkDecrypted (JObj fields) (Some (pair_access_token pair)) None)),
                s3)
             /\ forall k v,
                  obj_get k (payload_fields payload) = Some v ->
                  (k, v) <> ("iat"%string, JNum 0) ->
                  obj_get k fields = Some v.
Proof.
  intros payload s Hc Hg Hh Hk Hp.
  assert (Ho : so_algorithm (sign_options (this s)) = algorithm (this s))
    by (rewrite sign_options_eq; reflexivity).
  assert (Hs4 : ms (so_expiresIn (sign_options (this s))) = Some 345600000)
    by (rewrite sign_options_eq; reflexivity).
  assert (Hh4 : is_hmac (so_algorithm (sign_options (this s))) = true)
    by (rewrite Ho; exact Hh).
  assert (Hp7 : signable (with_expiresIn (sign_options (this s)) "7d")
                         (refresh_fields payload) = true).
  { unfold signable. cbn. destruct (so_issuer (sign_options (this s))); reflexivity. }
  destruct (contract_sign (payload_fields payload) (secret (this s))
              (sign_options (this s)) (Date_now (ext s)) 345600000 Hh4 Hk Hp Hs4)
    as [a Ha].
  destruct (contract_sign (refresh_fields payload) (secret (this s))
              (with_expiresIn (sign_options (this s)) "7d") (Date_now (ext s)) 604800000
              Hh4 Hk Hp7 eq_refl)
    as [r Hr].
  exists (mkIssuedTokenPair a r (Date_now (ext s) + 345600000) "Bearer").
  eexists. split; [exact (encrypt_without_create payload s a r Hc Ha Hr)|].
  cbn [this pair_access_token]. split; [reflexivity|].
  intros s2 Hthis Hact Hfresh.
  assert (Hv : jwt_verify a (secret (this s2)) (Date_now (ext s2))
               = Returns (JObj (stamped (sign_options (this s)) (payload_fields payload)
                                        (Date_now (ext s)) 345600000))).
  { rewrite Hthis.
    exact (contract_verify (payload_fields payload) (secret (this s))
             (sign_options (this s)) (Date_now (ext s)) 345600000 a (Date_now (ext s2))
             Hh4 Hk Hp Hs4 Ha Hact Hfresh). }
  exists (stamped (sign_options (this s)) (payload_fields payload)
                  (Date_now (ext s)) 345600000).
  eexists. split.
  - unfold decrypt. run. rewrite Hv. cbn. rewrite Hthis, Hg. reflexivity.
  - intros k v Hkv Hne.
    exact (HmacJwtFacts.stamped_keeps _ _ _ _ k v Hp Hkv Hne).
Qed.

End RoundTripContract.

(** C2 as stated fails: with no hooks and the sample payload, a manager
    configured with an asymmetric algorithm, or on a server whose secret is
    the empty string, cannot sign, and [encrypt] rejects. *)
Lemma encrypt_then_decrypt_needs_hmac_and_secret :
  sessionsHooks (this manager_with_RS256) = None
  /\ algorithm (this manager_with_RS256) = RS256
  /\ (exists e, fst (encrypt sample_payload manager_with_RS256) = Throws e)
  /\ sessionsHooks (this manager_without_secret) = None
  /\ secret (this manager_without_secret) = ""%string
  /\ (exists e,
        fst (encrypt (R := secretless) sample_payload manager_without_secret) = Throws e).
Proof.
  split; [reflexivity|]. split; [reflexivity|].
  split; [eexists; vm_compute; reflexivity|].
  split; [reflexivity|]. split; [reflexivity|].
  eexists. vm_compute. reflexivity.
Qed.

(** The time claims of a payload decide too: with an [exp] of its own
    [encrypt] rejects; with an [iat] in 1970 the token is expired as soon as
    it is signed, and with an [nbf] in 2100 it is not active yet, so that
    [decrypt] resolves to [null] on the token [encrypt] has just returned. *)
Example encrypt_then_decrypt_time_claims :
  (exists e, fst (encrypt payload_with_exp plain_manager) = Throws e)
  /\ (exists pair,
        fst (encrypt payload_with_stale_iat plain_manager) = Returns pair
        /\ fst (decrypt (pair_access_token pair) KAccessToken plain_manager)
           = Returns None)
  /\ (exists pair,
        fst (encrypt payload_with_future_nbf plain_manager) = Returns pair
        /\ fst (decrypt (pair_access_token pair) KAccessToken plain_manager)
           = Returns None).
Proof.
  split; [eexists; vm_compute; reflexivity|].
  split; eexists; (split; [vm_compute; reflexivity|vm_compute; reflexivity]).
Qed.

(** The amended C2 on a payload with a subject of its own: default
    algorithm, no hooks, symbolic signatures, read back in the state
    [encrypt] ended in. *)
Lemma encrypt_then_decrypt_witness :
  exists pair s1,
    encrypt payload_with_sub plain_manager = (Returns pair, s1)
    /\ exists fields s3,
         decrypt (pair_access_token pair) KAccessToken s1
         = (Returns (Some (mkDecrypted (JObj fields) (Some (pair_access_token pair)) None)),
            s3)
         /\ obj_get "auth" fields = obj_get "auth" (payload_fields payload_with_sub)
         /\ obj_get "user" fields = obj_get "user" (payload_fields payload_with_sub)
         /\ obj_get "sub" fields = Some (JStr "42").
Proof.
  destruct (encrypt_then_decrypt (C := HmacJwtFacts.lib_contract) (R := offline)
              payload_with_sub plain_manager
              eq_refl eq_refl eq_refl ltac:(discriminate) eq_refl)
    as (pair & s1 & He & Hthis & Hd).
  exists pair, s1. split; [exact He|].
  assert (Hext : Date_now (ext s1) = clock0).
  { destruct (encrypt_returns_inv _ _ _ _ He) as (_ & _ & _ & _ & _ & [(_ & Hw & _)|Hx]).
    - rewrite Hw. reflexivity.
    - destruct Hx as (create & Hx & _). discriminate Hx. }
  destruct (Hd s1 Hthis eq_refl) as (fields & s3 & Hdec & Hfields).
  { rewrite Hext. vm_compute. reflexivity. }
  exists fields, s3. split; [exact Hdec|].
  repeat split; apply Hfields; solve [reflexivity | discriminate].
Defined.

Section SignOut.
Context {token Ext : Type} {J : JwtLib token} {R : Runtime Ext}.

(** C8, as amended: without a [delete] hook [signOut] resolves to [true]
    and does nothing else; with one, the hook is called exactly once, with
    the given access token, and [signOut] resolves to [true] when the hook
    completes; when the hook rejects, [signOut] rejects with the same
    error. *)
Theorem signOut_spec :
  forall (accessToken : token) (s : @State token Ext),
    (hook_delete (this s) = None ->
     signOut accessToken s = (Returns true, s))
    /\ (forall delete,
          hook_delete (this s) = Some delete ->
          trace (snd (signOut accessToken s)) = trace s ++ [EvDelete accessToken]
          /\ ext (snd (signOut accessToken s)) = snd (delete accessToken (ext s))
          /\ (forall w, delete accessToken (ext s) = (Returns tt, w) ->
                        fst (signOut accessToken s) = Returns true)
          /\ (forall e w, delete accessToken (ext s) = (Throws e, w) ->
                          fst (signOut accessToken s) = Throws e)).
Proof.
  intros accessToken s. split.
  - intros Hd. unfold signOut. run. rewrite Hd. destruct s; reflexivity.
  - intros delete Hd. unfold signOut. run. rewrite Hd. cbn.
    destruct (delete accessToken (ext s)) as [[[]|e] w]; cbn.
    + repeat split. intros e w' H. discriminate H.
    + repeat split.
      * intros w' H. discriminate H.
      * intros e' w' H. injection H as -> _. reflexivity.
Qed.

End SignOut.

(** C8 as stated fails: the [delete] hook rejects, and so does [signOut]. *)
Lemma signOut_failing_delete_rejects :
  hook_delete (this manager_with_failing_delete) = Some delete_failing
  /\ fst (signOut garbage manager_with_failing_delete)
     = Throws (mkError "Error" "session store unreachable")
  /\ fst (signOut garbage manager_with_failing_delete) <> Returns true.
Proof.
  split; [reflexivity|]. split; [reflexivity|]. discriminate.
Qed.

(** The amended C8 on a manager whose [delete] hook works. *)
Lemma signOut_spec_witness :
  hook_delete (this manager_with_delete) = Some delete_working
  /\ trace (snd (signOut garbage manager_with_delete)) = [EvDelete garbage]
  /\ fst (signOut garbage manager_with_delete) = Returns true.
Proof.
  split; [reflexivity|].
  destruct (proj2 (signOut_spec garbage manager_with_delete) delete_working eq_refl)
    as (Ht & _ & Hok & _).
  split; [exact Ht|exact (Hok _ eq_refl)].
Defined.

Section OAuth.
Context {token Ext : Type} {J : JwtLib token} {R : Runtime Ext}.

(** C3, as amended: when the token endpoint answers with a status that is
    not a success and a body that is JSON, [authOrRefresh] logs that body
    and resolves to [null]; when [fetch] itself rejects, or the body of the
    answer is not JSON, [authOrRefresh] rejects with that error and logs
    nothing. *)
Theorem authOrRefresh_failed_exchange :
  forall (tokenOrCode : string) (grantType : GrantType) (redirectUri : option string)
         (s : @State token Ext) (a : ServerAuth Ext),
    server_auth = Some a ->
    let request := token_request a tokenOrCode grantType redirectUri in
    (forall result w body,
        fetch request (ext s) = (Returns result, w) ->
        ok result = false ->
        json_body result = Returns body ->
        authOrRefresh tokenOrCode grantType redirectUri s
        = (Returns JNull,
           mkState (this s) w (trace s ++ [EvFetch request; EvLogError body])))
    /\ (forall e w,
          fetch request (ext s) = (Throws e, w) ->
          authOrRefresh tokenOrCode grantType redirectUri s
          = (Throws e, mkState (this s) w (trace s ++ [EvFetch request])))
    /\ (forall result w e,
          fetch request (ext s) = (Returns result, w) ->
          json_body result = Throws e ->
          authOrRefresh tokenOrCode grantType redirectUri s
          = (Throws e, mkState (this s) w (trace s ++ [EvFetch request]))).
Proof.
  intros tokenOrCode grantType redirectUri s a Ha request.
  unfold authOrRefresh. rewrite Ha. fold request. run.
  split; [|split].
  - intros result w body Hf Hok Hb. rewrite Hf. cbn. rewrite Hb. cbn. rewrite Hok. cbn.
    rewrite <- app_assoc. reflexivity.
  - intros e w Hf. rewrite Hf. reflexivity.
  - intros result w e Hf Hb. rewrite Hf. cbn. rewrite Hb. reflexivity.
Qed.

(** [authOrRefresh] never fetches user data. *)
Lemma authOrRefresh_fetches_no_user_data :
  forall tokenOrCode grantType redirectUri (s : @State token Ext),
    fetchData_calls (trace (snd (authOrRefresh tokenOrCode grantType redirectUri s)))
    = fetchData_calls (trace s).
Proof.
  intros tokenOrCode grantType redirectUri s. unfold authOrRefresh, fetchData_calls.
  destruct server_auth as [a|]; run; [|reflexivity].
  destruct (fetch _ (ext s)) as [[result|e] w]; cbn.
  - destruct (json_body result) as [body|e]; cbn.
    + destruct (ok result); cbn; rewrite ?filter_app; cbn; rewrite ?app_nil_r; reflexivity.
    + rewrite filter_app. cbn. apply app_nil_r.
  - rewrite filter_app. cbn. apply app_nil_r.
Qed.

(** C7: when [authOrRefresh] resolves to a nullish value, [auth] resolves to
    [null] in the very state [authOrRefresh] ended in, so [fetchData] is not
    called; the same holds when [authOrRefresh] rejects; and whenever [auth]
    does call [fetchData], [authOrRefresh] has resolved to a value that is
    not nullish and the call is the one thing [auth] did after it. *)
Theorem auth_fetches_only_after_exchange :
  forall (code : string) (grantType : GrantType) (redirectUri : option string)
         (s : @State token Ext),
    (forall authData s1,
        authOrRefresh code grantType redirectUri s = (Returns authData, s1) ->
        isNullish authData = true ->
        auth code grantType redirectUri s = (Returns None, s1)
        /\ fetchData_calls (trace s1) = fetchData_calls (trace s))
    /\ (forall e s1,
          authOrRefresh code grantType redirectUri s = (Throws e, s1) ->
          auth code grantType redirectUri s = (Throws e, s1)
          /\ fetchData_calls (trace s1) = fetchData_calls (trace s))
    /\ (fetchData_calls (trace (snd (auth code grantType redirectUri s)))
        <> fetchData_calls (trace s) ->
        exists authData s1,
          authOrRefresh code grantType redirectUri s = (Returns authData, s1)
          /\ isNullish authData = false
          /\ trace (snd (auth code grantType redirectUri s))
             = trace s1 ++ [EvFetchData (prop "access_token" authData)]).
Proof.
  intros code grantType redirectUri s.
  pose proof (authOrRefresh_fetches_no_user_data code grantType redirectUri s) as Hno.
  unfold auth, bind.
  destruct (authOrRefresh code grantType redirectUri s) as [[authData|e] s1] eqn:Hex;
    cbn in Hno.
  - split; [|split].
    + intros authData' s1' H Hn. injection H as <- <-. rewrite Hn. split; [reflexivity|exact Hno].
    + intros e s1' H. discriminate H.
    + destruct (isNullish authData) eqn:Hn; cbn.
      * intros H. contradiction.
      * intros _. exists authData, s1. split; [reflexivity|]. split; [exact Hn|].
        destruct server_auth as [a|] eqn:Ha; run.
        -- destruct (fetchData a (prop "access_token" authData) (ext s1)) as [[[user|]|e] w];
             cbn; try reflexivity.
           destruct (isNullish user); reflexivity.
        -- unfold authOrRefresh in Hex. rewrite Ha in Hex. discriminate Hex.
  - split; [|split].
    + intros authData s1' H. discriminate H.
    + intros e' s1' H. injection H as <- <-. split; [reflexivity|exact Hno].
    + cbn. intros H. contradiction.
Qed.

End OAuth.

(** C3 as stated fails: the network is down, [fetch] rejects, and
    [authOrRefresh] rejects with the same error instead of resolving to
    [null]; nothing is logged.  Likewise behind a gateway that answers with
    a page that is not JSON. *)
Lemma authOrRefresh_network_failure_rejects :
  fst (authOrRefresh (R := offline) "abc" GrantCode None plain_manager)
  = Throws (TypeError "fetch failed")
  /\ fst (authOrRefresh (R := offline) "abc" GrantCode None plain_manager) <> Returns JNull
  /\ trace (snd (authOrRefresh (R := offline) "abc" GrantCode None plain_manager))
     = [EvFetch (token_request (R := offline) discord_app "abc" GrantCode None)]
  /\ fst (authOrRefresh (R := behind_bad_gateway) "abc" GrantRefresh None plain_manager)
     = Throws (SyntaxError "Unexpected token < in JSON at position 0").
Proof.
  split; [reflexivity|]. split; [discriminate|]. split; reflexivity.
Qed.

(** The amended C3 on a provider that refuses the grant. *)
Lemma authOrRefresh_failed_exchange_witness :
  server_auth (Runtime := refusing) = Some discord_app
  /\ authOrRefresh (R := refusing) "abc" GrantCode None plain_manager
     = (Returns JNull,
        mkState (this plain_manager) (clock0 + 20)
          [EvFetch (token_request (R := refusing) discord_app "abc" GrantCode None);
           EvLogError (JObj [("error"%string, JStr "invalid_grant")])]).
Proof.
  split; [reflexivity|].
  exact (proj1 (authOrRefresh_failed_exchange (R := refusing) "abc" GrantCode None
                  plain_manager discord_app eq_refl)
               invalid_grant (clock0 + 20) (JObj [("error"%string, JStr "invalid_grant")])
               eq_refl eq_refl eq_refl).
Defined.

(** C7 on the same provider: the grant is refused, [auth] resolves to
    [null], and no user data is fetched. *)
Lemma auth_fetches_only_after_exchange_witness :
  isNullish JNull = true
  /\ auth (R := refusing) "abc" GrantCode None plain_manager
     = (Returns None, snd (authOrRefresh (R := refusing) "abc" GrantCode None plain_manager))
  /\ fetchData_calls
       (trace (snd (authOrRefresh (R := refusing) "abc" GrantCode None plain_manager)))
     = fetchData_calls (trace plain_manager).
Proof.
  split; [reflexivity|].
  exact (proj1 (auth_fetches_only_after_exchange (R := refusing) "abc" GrantCode None
                  plain_manager)
               JNull _ eq_refl eq_refl).
Defined.

Section Configuration.
Context {token Ext : Type} {J : JwtLib token} {R : Runtime Ext}.

Lemma keeps_ret : forall (A : Type) (a : A), keeps_this (@ret token Ext A a).
Proof. intros A a s. reflexivity. Qed.

Lemma keeps_throw : forall (A : Type) (e : JsError), keeps_this (@throw token Ext A e).
Proof. intros A e s. reflexivity. Qed.

Lemma keeps_bind :
  forall (A B : Type) (m : @M token Ext A) (k : A -> @M token Ext B),
    keeps_this m -> (forall a, keeps_this (k a)) -> keeps_this (bind m k).
Proof.
  intros A B m k Hm Hk s. unfold bind. specialize (Hm s).
  destruct (m s) as [[a|e] s1]; cbn in *.
  - rewrite (Hk a s1). exact Hm.
  - exact Hm.
Qed.

Lemma keeps_await :
  forall (A : Type) (e : @Event token) (call : @Async Ext A), keeps_this (await e call).
Proof. intros A e call s. unfold await. destruct (call (ext s)). reflexivity. Qed.

Lemma keeps_read_this : keeps_this (@read_this token Ext).
Proof. intros s. reflexivity. Qed.

Lemma keeps_now : keeps_this (@now token Ext R).
Proof. intros s. reflexivity. Qed.

Lemma keeps_sign :
  forall payload key o, keeps_this (@sign token Ext J R payload key o).
Proof. intros payload key o s. reflexivity. Qed.

Lemma keeps_verify : forall t key, keeps_this (@verify token Ext J R t key).
Proof. intros t key s. reflexivity. Qed.

Lemma keeps_Result_from_call :
  forall (A : Type) (m : @M token Ext A), keeps_this m -> keeps_this (Result_from_call m).
Proof.
  intros A m Hm s. unfold Result_from_call. specialize (Hm s).
  destruct (m s). exact Hm.
Qed.

Lemma keeps_logger_error : forall j, keeps_this (@logger_error token Ext j).
Proof. intros j s. reflexivity. Qed.

Lemma keeps_settled : forall (A : Type) (r : outcome A), keeps_this (@settled token Ext A r).
Proof. intros A r s. reflexivity. Qed.

Create HintDb keeps discriminated.
Hint Resolve keeps_ret keeps_throw keeps_await keeps_read_this keeps_now keeps_sign
  keeps_verify keeps_Result_from_call keeps_logger_error keeps_settled : keeps.

(** Walks through a method: every step is a bind, a branch or a primitive. *)
Ltac keeps :=
  repeat first
    [ apply keeps_bind; [|intros ?]
    | match goal with
      | |- keeps_this (match ?x with _ => _ end) => destruct x
      | |- keeps_this (if ?b then _ else _) => destruct b
      end
    | solve [auto with keeps] ].

Lemma keeps_encrypt : forall payload, keeps_this (@encrypt token Ext J R payload).
Proof. intros payload. unfold encrypt. keeps. Qed.

Lemma keeps_decrypt : forall t type, keeps_this (@decrypt token Ext J R t type).
Proof. intros t type. unfold decrypt. keeps. Qed.

Lemma keeps_signOut : forall t : token, keeps_this (@signOut token Ext t).
Proof. intros t. unfold signOut. keeps. Qed.

Lemma keeps_authOrRefresh :
  forall code grantType redirectUri,
    keeps_this (@authOrRefresh token Ext R code grantType redirectUri).
Proof. intros code grantType redirectUri. unfold authOrRefresh. keeps. Qed.

Lemma keeps_auth :
  forall code grantType redirectUri,
    keeps_this (@auth token Ext R code grantType redirectUri).
Proof.
  intros code grantType redirectUri. unfold auth.
  apply keeps_bind; [apply keeps_authOrRefresh|intros authData]. keeps.
Qed.

(** C9: the constructor sets the four fields of the manager from its
    options and from the server configuration, and every method, however it
    ends, leaves all four as they were. *)
Theorem configuration_is_read_only :
  forall (options : @ClientOptions token Ext),
    (issuer (new_Client options) = options_issuer options
     /\ sessionsHooks (new_Client options) = options_sessionsHooks options
     /\ algorithm (new_Client options)
        = match options_algorithm options with Some a => a | None => HS512 end
     /\ secret (new_Client options)
        = match server_auth with
          | Some a => auth_secret a
          | None => "NEKO-PLUGINS"%string
          end)
    /\ forall s : @State token Ext,
         (forall payload, this (snd (encrypt payload s)) = this s)
         /\ (forall t type, this (snd (decrypt t type s)) = this s)
         /\ (forall t, this (snd (signOut t s)) = this s)
         /\ (forall code grantType redirectUri,
               this (snd (auth code grantType redirectUri s)) = this s)
         /\ (forall code grantType redirectUri,
               this (snd (authOrRefresh code grantType redirectUri s)) = this s).
Proof.
  intros options. split; [repeat split|].
  intros s. repeat split; intros.
  - apply keeps_encrypt.
  - apply keeps_decrypt.
  - apply keeps_signOut.
  - apply keeps_auth.
  - apply keeps_authOrRefresh.
Qed.

End Configuration.

End ClientSpec.

(** ** [tryNumberParse] *)

Module InfluxSpec.
Import Influx.

(** C10: [tryNumberParse] returns [undefined] for [undefined]; for a string
    it returns [Number] of the string when that is not [NaN] and throws a
    [TypeError] exactly when it is [NaN]; so whatever it returns is not
    [NaN]. *)
Theorem tryNumberParse_spec :
  forall (Number : string -> spec_float),
    tryNumberParse Number None = Returns None
    /\ (forall value,
          Number_isNaN (Number value) = false ->
          tryNumberParse Number (Some value) = Returns (Some (Number value)))
    /\ (forall value,
          (exists e, tryNumberParse Number (Some value) = Throws e)
          <-> Number_isNaN (Number value) = true)
    /\ (forall value e,
          tryNumberParse Number (Some value) = Throws e ->
          e = TypeError ("Could not parse " ++ value ++ " to a number"))
    /\ (forall value number,
          tryNumberParse Number value = Returns (Some number) ->
          Number_isNaN number = false).
Proof.
  intros Number. unfold tryNumberParse.
  split; [reflexivity|]. split; [|split; [|split]].
  - intros value H. rewrite H. reflexivity.
  - intros value. destruct (Number_isNaN (Number value)); split.
    + reflexivity.
    + intros _. eexists. reflexivity.
    + intros [e H]. discriminate H.
    + discriminate.
  - intros value e. destruct (Number_isNaN (Number value)); intros H.
    + injection H as <-. reflexivity.
    + discriminate H.
  - intros [value|] number; [|discriminate].
    destruct (Number_isNaN (Number value)) eqn:Hn; intros H; [discriminate H|].
    injection H as <-. exact Hn.
Qed.

(** [tryNumberParse] on a numeral, on a word and on [undefined]. *)
Example tryNumberParse_samples :
  tryNumberParse Fixtures.sample_Number (Some "8")
  = Returns (Some (S754_finite false 4503599627370496 (-49)))
  /\ tryNumberParse Fixtures.sample_Number (Some "eight")
     = Throws (TypeError "Could not parse eight to a number")
  /\ tryNumberParse Fixtures.sample_Number None = Returns None.
Proof. repeat split. Qed.

End InfluxSpec.

(** ** More of the session-token manager *)

Module ClientMore.
Import ApiJwt Wire Fixtures MoreFixtures ClientSpec.
Local Open Scope js_scope.
Local Open Scope list_scope.
#[local] Existing Instance HmacJwt.lib.
#[local] Existing Instance offline.

Section EncryptMore.
Context {token Ext : Type} {J : JwtLib token} {R : Runtime Ext}.

(** X1: when [encrypt] resolves on a manager with a [create] hook, the hook
    was called exactly once, after both signatures, with the session made of
    the two tokens of the returned pair and the payload as [data]; the
    outside world is the one the hook left. *)
Theorem encrypt_persists_returned_pair :
  forall (payload : SessionUserData) (s s' : @State token Ext) pair create,
    hook_create (this s) = Some create ->
    encrypt payload s = (Returns pair, s') ->
    let session := mkSession (pair_access_token pair) (pair_refresh_token pair) payload in
    trace s' = trace s ++ signed_twice payload s ++ [EvCreate session]
    /\ create session (ext s) = (Returns tt, ext s')
    /\ session_data session = payload.
Proof.
  intros payload s s' pair create Hc H session.
  destruct (encrypt_returns_inv payload s pair s' H)
    as (_ & _ & _ & _ & _ & [(Hc' & _)|(create' & Hc' & Hw & Ht)]).
  - rewrite Hc in Hc'. discriminate Hc'.
  - rewrite Hc in Hc'. injection Hc' as <-. repeat split; assumption.
Qed.

(** X2: when [jwt.sign] throws on the access token, [encrypt] rejects with
    that error having made no other call; when it throws on the refresh
    token, [encrypt] rejects with that error after the two calls of
    [jwt.sign].  Either way the [create] hook is not called and the outside
    world is untouched. *)
Theorem encrypt_sign_failure :
  forall (payload : SessionUserData) (s : @State token Ext),
    (forall e,
        access_signature payload s = Throws e ->
        encrypt payload s
        = (Throws e,
           mkState (this s) (ext s)
             (trace s ++ [EvSign (JObj (payload_fields payload)) (secret (this s))
                                 (sign_options (this s))])))
    /\ (forall a e,
          access_signature payload s = Returns a ->
          refresh_signature payload s = Throws e ->
          encrypt payload s
          = (Throws e, mkState (this s) (ext s) (trace s ++ signed_twice payload s))).
Proof.
  intros payload s. unfold access_signature, refresh_signature, signed_twice. split.
  - intros e Ha. unfold encrypt. run. rewrite Ha. reflexivity.
  - intros a e Ha Hr. unfold encrypt. run. rewrite Ha. cbn. rewrite Hr. cbn.
    rewrite <- app_assoc. reflexivity.
Qed.

(** X3: when the [create] hook rejects, [encrypt] rejects with the hook's
    error: both tokens were signed and handed to the hook, and none is
    returned. *)
Theorem encrypt_create_failure :
  forall (payload : SessionUserData) (s : @State token Ext) create a r e w,
    hook_create (this s) = Some create ->
    access_signature payload s = Returns a ->
    refresh_signature payload s = Returns r ->
    create (mkSession a r payload) (ext s) = (Throws e, w) ->
    encrypt payload s
    = (Throws e,
       mkState (this s) w
         (trace s ++ signed_twice payload s ++ [EvCreate (mkSession a r payload)])).
Proof.
  unfold access_signature, refresh_signature, signed_twice.
  intros payload s create a r e w Hc Ha Hr Hw. unfold encrypt. run.
  rewrite Ha. cbn. rewrite Hr. cbn. rewrite Hc. cbn. rewrite Hw. cbn.
  rewrite <- !app_assoc. reflexivity.
Qed.

End EncryptMore.

(** X1 on the manager with the slow [create] hook. *)
Lemma encrypt_persists_returned_pair_witness :
  exists pair s',
    encrypt sample_payload manager_with_slow_create = (Returns pair, s')
    /\ trace s'
       = signed_twice sample_payload manager_with_slow_create
         ++ [EvCreate (mkSession (pair_access_token pair) (pair_refresh_token pair)
                                 sample_payload)]
    /\ ext s' = clock0 + 1000.
Proof.
  destruct (encrypt sample_payload manager_with_slow_create) as [[pair|e] s'] eqn:H.
  - exists pair, s'. split; [reflexivity|].
    destruct (encrypt_persists_returned_pair sample_payload manager_with_slow_create
                s' pair create_slow eq_refl H) as (Ht & Hw & _).
    split; [exact Ht|]. injection Hw as <-. reflexivity.
  - apply (f_equal fst) in H. vm_compute in H. discriminate H.
Defined.

(** X2 on a payload with an [exp] of its own, which [jwt.sign] refuses
    beside [expiresIn]: the slow [create] hook is never reached. *)
Lemma encrypt_sign_failure_witness :
  exists e,
    access_signature payload_with_exp manager_with_slow_create = Throws e
    /\ fst (encrypt payload_with_exp manager_with_slow_create) = Throws e
    /\ ext (snd (encrypt payload_with_exp manager_with_slow_create)) = clock0.
Proof.
  destruct (access_signature payload_with_exp manager_with_slow_create) as [a|e] eqn:Ha;
    [vm_compute in Ha; discriminate Ha|].
  exists e. split; [reflexivity|].
  rewrite (proj1 (encrypt_sign_failure payload_with_exp manager_with_slow_create) e Ha).
  split; reflexivity.
Defined.

(** X3 on a manager whose [create] hook cannot reach its store. *)
Lemma encrypt_create_failure_witness :
  exists a r,
    access_signature sample_payload manager_with_failing_create = Returns a
    /\ refresh_signature sample_payload manager_with_failing_create = Returns r
    /\ fst (encrypt sample_payload manager_with_failing_create)
       = Throws (mkError "Error" "session store unreachable").
Proof.
  destruct (access_signature sample_payload manager_with_failing_create) as [a|e] eqn:Ha;
    [|vm_compute in Ha; discriminate Ha].
  destruct (refresh_signature sample_payload manager_with_failing_create) as [r|e] eqn:Hr;
    [|vm_compute in Hr; discriminate Hr].
  exists a, r. split; [reflexivity|]. split; [reflexivity|].
  rewrite (encrypt_create_failure sample_payload manager_with_failing_create
             create_failing a r (mkError "Error" "session store unreachable")
             (clock0 + 5) eq_refl Ha Hr eq_refl).
  reflexivity.
Defined.

Section DecryptMore.
Context {token Ext : Type} {J : JwtLib token} {R : Runtime Ext}.

(** [decrypt] case by case: how [jwt.verify] ends, whether a [get] hook is
    configured, and how the hook ends. *)
Lemma decrypt_cases :
  forall (t : token) (type : TokenKind) (s : @State token Ext),
    let key := secret (this s) in
    match jwt_verify t key (Date_now (ext s)) with
    | Throws _ => decrypt t type s = (Returns None, record (EvVerify t key) s)
    | Returns decoded =>
        match hook_get (this s) with
        | None =>
            decrypt t type s
            = (Returns (Some (keyed decoded type t)), record (EvVerify t key) s)
        | Some get =>
            decrypt t type s
            = (match fst (get t type (ext s)) with
               | Returns (Some session) =>
                   Returns (Some (mkDecrypted decoded
                                              (Some (session_access_token session))
                                              (Some (session_refresh_token session))))
               | Returns None => Returns None
               | Throws e => Throws e
               end,
               mkState (this s) (snd (get t type (ext s)))
                       (trace s ++ [EvVerify t key; EvGet t type]))
        end
    end.
Proof.
  intros t type s key. subst key. unfold decrypt. run.
  destruct (jwt_verify t (secret (this s)) (Date_now (ext s))) as [decoded|e]; cbn;
    [|reflexivity].
  destruct (hook_get (this s)) as [get|]; cbn; [|reflexivity].
  destruct (get t type (ext s)) as [[[session|]|e] w]; cbn;
    rewrite <- app_assoc; reflexivity.
Qed.

(** X4: whenever [decrypt] resolves to a result that is not [null], the
    token verified under the configured secret and [data] is exactly what
    [jwt.verify] returned: the [null] default of [unwrapOr] never shows, and
    no hook can make [decrypt] return a session for a token that does not
    verify. *)
Theorem decrypt_result_is_verified :
  forall (t : token) (type : TokenKind) (s s' : @State token Ext) result,
    decrypt t type s = (Returns (Some result), s') ->
    jwt_verify t (secret (this s)) (Date_now (ext s)) = Returns (data result).
Proof.
  intros t type s s' result H. pose proof (decrypt_cases t type s) as Hc. cbv zeta in Hc.
  destruct (jwt_verify t (secret (this s)) (Date_now (ext s))) as [decoded|e].
  - destruct (hook_get (this s)) as [get|].
    + rewrite Hc in H.
      destruct (fst (get t type (ext s))) as [[session|]|e]; try discriminate H.
      injection H as <- _. reflexivity.
    + rewrite Hc in H. injection H as <- _. destruct type; reflexivity.
  - rewrite Hc in H. discriminate H.
Qed.

(** X5: [decrypt] calls [jwt.verify] exactly once, before anything else,
    and the [get] hook at most once, with the token and the kind it was
    given, and only after the token has verified; it makes no other call,
    and it leaves the outside world untouched unless it calls the hook. *)
Theorem decrypt_calls :
  forall (t : token) (type : TokenKind) (s : @State token Ext),
    let s' := snd (decrypt t type s) in
    let key := secret (this s) in
    (trace s' = trace s ++ [EvVerify t key] /\ ext s' = ext s)
    \/ (exists decoded get,
          jwt_verify t key (Date_now (ext s)) = Returns decoded
          /\ hook_get (this s) = Some get
          /\ trace s' = trace s ++ [EvVerify t key; EvGet t type]
          /\ ext s' = snd (get t type (ext s))).
Proof.
  intros t type s s' key. subst s' key.
  pose proof (decrypt_cases t type s) as Hc. cbv zeta in Hc.
  destruct (jwt_verify t (secret (this s)) (Date_now (ext s))) as [decoded|e].
  - destruct (hook_get (this s)) as [get|].
    + right. exists decoded, get. rewrite Hc. repeat split.
    + left. rewrite Hc. split; reflexivity.
  - left. rewrite Hc. split; reflexivity.
Qed.

(** X6: when the token verifies and the [get] hook finds no session,
    [decrypt] resolves to [null]; when the hook rejects, [decrypt] rejects
    with the hook's error. *)
Theorem decrypt_hook_miss_or_failure :
  forall (t : token) (type : TokenKind) (s : @State token Ext) decoded get,
    jwt_verify t (secret (this s)) (Date_now (ext s)) = Returns decoded ->
    hook_get (this s) = Some get ->
    (forall w, get t type (ext s) = (Returns None, w) ->
               fst (decrypt t type s) = Returns None)
    /\ (forall e w, get t type (ext s) = (Throws e, w) ->
                    fst (decrypt t type s) = Throws e).
Proof.
  intros t type s decoded get Hv Hg.
  pose proof (decrypt_cases t type s) as Hc. cbv zeta in Hc. rewrite Hv, Hg in Hc.
  rewrite Hc. split.
  - intros w Hw. rewrite Hw. reflexivity.
  - intros e w Hw. rewrite Hw. reflexivity.
Qed.

(** X7: without a [get] hook, a token that verifies makes [decrypt] resolve
    to the decoded payload and the token itself under the requested key
    only: ['access_token'] leaves [refresh_token] absent, and the other way
    round. *)
Theorem decrypt_without_hook_echoes :
  forall (t : token) (type : TokenKind) (s : @State token Ext) decoded,
    hook_get (this s) = None ->
    jwt_verify t (secret (this s)) (Date_now (ext s)) = Returns decoded ->
    exists result,
      fst (decrypt t type s) = Returns (Some result)
      /\ data result = decoded
      /\ match type with
         | KAccessToken => access_token result = Some t /\ refresh_token result = None
         | KRefreshToken => refresh_token result = Some t /\ access_token result = None
         end.
Proof.
  intros t type s decoded Hg Hv.
  pose proof (decrypt_cases t type s) as Hc. cbv zeta in Hc. rewrite Hv, Hg in Hc.
  exists (keyed decoded type t). rewrite Hc.
  destruct type; repeat split.
Qed.

(** X8: [decrypt] reads the secret and the hooks of the manager and nothing
    else: two managers that differ only in issuer and algorithm resolve
    [decrypt] alike, so neither the issuer nor the algorithm configured is
    checked against the token. *)
Theorem decrypt_ignores_issuer_and_algorithm :
  forall (t : token) (type : TokenKind) (c1 c2 : @Client token Ext) w tr,
    secret c1 = secret c2 ->
    sessionsHooks c1 = sessionsHooks c2 ->
    fst (decrypt t type (mkState c1 w tr)) = fst (decrypt t type (mkState c2 w tr))
    /\ ext (snd (decrypt t type (mkState c1 w tr)))
       = ext (snd (decrypt t type (mkState c2 w tr)))
    /\ trace (snd (decrypt t type (mkState c1 w tr)))
       = trace (snd (decrypt t type (mkState c2 w tr))).
Proof.
  intros t type c1 c2 w tr Hs Hh.
  pose proof (decrypt_cases t type (mkState c1 w tr)) as H1.
  pose proof (decrypt_cases t type (mkState c2 w tr)) as H2.
  cbv zeta in H1, H2. cbn [this ext trace] in H1, H2.
  unfold hook_get in H1, H2. rewrite Hs, Hh in H1.
  destruct (jwt_verify t (secret c2) (Date_now w)) as [decoded|e].
  - destruct (sessionsHooks c2) as [h|]; [destruct (get h) as [g|]|];
      rewrite H1, H2; repeat split.
  - rewrite H1, H2. repeat split.
Qed.

End DecryptMore.

(** X4 on a token that the manager signed itself. *)
Lemma decrypt_result_is_verified_witness :
  exists pair result s',
    fst (encrypt sample_payload plain_manager) = Returns pair
    /\ decrypt (pair_access_token pair) KAccessToken plain_manager
       = (Returns (Some result), s')
    /\ jwt_verify (pair_access_token pair) (secret (this plain_manager))
                  (Date_now (ext plain_manager))
       = Returns (data result).
Proof.
  destruct (fst (encrypt sample_payload plain_manager)) as [pair|e] eqn:He;
    [|vm_compute in He; discriminate He].
  destruct (decrypt (pair_access_token pair) KAccessToken plain_manager)
    as [[[result|]|e] s'] eqn:Hd.
  - exists pair, result, s'. split; [reflexivity|]. split; [exact Hd|].
    exact (decrypt_result_is_verified _ _ _ _ _ Hd).
  - vm_compute in He. injection He as <-.
    apply (f_equal fst) in Hd. vm_compute in Hd. discriminate Hd.
  - vm_compute in He. injection He as <-.
    apply (f_equal fst) in Hd. vm_compute in Hd. discriminate Hd.
Defined.

(** X6 on a manager whose [get] hook finds nothing, with a token it signed
    itself. *)
Lemma decrypt_hook_miss_or_failure_witness :
  exists pair,
    fst (encrypt sample_payload manager_with_get_nothing) = Returns pair
    /\ hook_get (this manager_with_get_nothing) = Some get_nothing
    /\ fst (decrypt (pair_access_token pair) KAccessToken manager_with_get_nothing)
       = Returns None.
Proof.
  destruct (fst (encrypt sample_payload manager_with_get_nothing)) as [pair|e] eqn:He;
    [|vm_compute in He; discriminate He].
  exists pair. split; [reflexivity|]. split; [reflexivity|].
  vm_compute in He. injection He as <-.
  match goal with
  | |- fst (decrypt ?t _ _) = _ =>
      exact (proj1 (decrypt_hook_miss_or_failure t KAccessToken manager_with_get_nothing
                      _ get_nothing eq_refl eq_refl) (clock0 + 5) eq_refl)
  end.
Defined.

(** X7 on a refresh token the manager signed itself. *)
Lemma decrypt_without_hook_echoes_witness :
  exists pair result,
    fst (encrypt sample_payload plain_manager) = Returns pair
    /\ fst (decrypt (pair_refresh_token pair) KRefreshToken plain_manager)
       = Returns (Some result)
    /\ refresh_token result = Some (pair_refresh_token pair)
    /\ access_token result = None.
Proof.
  destruct (fst (encrypt sample_payload plain_manager)) as [pair|e] eqn:He;
    [|vm_compute in He; discriminate He].
  vm_compute in He. injection He as <-.
  destruct (decrypt_without_hook_echoes (J := HmacJwt.lib) (R := offline)
              (HmacJwt.Signed HS512 "app-secret"
                 (refresh_fields sample_payload
                  ++ signed_claims (mkSignOptions HS512 "7d" None) clock0 604800000))
              KRefreshToken plain_manager
              (JObj (refresh_fields sample_payload
                     ++ signed_claims (mkSignOptions HS512 "7d" None) clock0 604800000))
              eq_refl eq_refl)
    as (result & Hr & _ & Ht & Ha).
  eexists. exists result. split; [reflexivity|]. split; [exact Hr|].
  split; [exact Ht|exact Ha].
Defined.

(** X8 on a token signed by a manager with issuer ["neko"], read by a
    manager with no issuer: the token is accepted, issuer claim and all. *)
Lemma decrypt_ignores_issuer_and_algorithm_witness :
  exists pair result,
    fst (encrypt sample_payload manager_with_issuer) = Returns pair
    /\ fst (decrypt (pair_access_token pair) KAccessToken plain_manager)
       = Returns (Some result)
    /\ fst (decrypt (pair_access_token pair) KAccessToken plain_manager)
       = fst (decrypt (pair_access_token pair) KAccessToken manager_with_issuer)
    /\ prop "iss" (data result) = Some (JStr "neko").
Proof.
  destruct (fst (encrypt sample_payload manager_with_issuer)) as [pair|e] eqn:He;
    [|vm_compute in He; discriminate He].
  vm_compute in He. injection He as <-.
  eexists. eexists. split; [reflexivity|]. split; [vm_compute; reflexivity|].
  split; [|reflexivity].
  match goal with
  | |- fst (decrypt ?t _ _) = _ =>
      exact (proj1 (decrypt_ignores_issuer_and_algorithm t KAccessToken
                      (this plain_manager) (this manager_with_issuer) clock0 []
                      eq_refl eq_refl))
  end.
Defined.

Section HooklessMore.
Context {token Ext : Type} {J : JwtLib token} {R : Runtime Ext}.


End HooklessMore.

Section RoundTripMore.
Context {token Ext : Type} {J : JwtLib token} {L : JwtLawful J} {R : Runtime Ext}.

(** Under the library contract, what [encrypt] returns without a [create]
    hook and what each of its two tokens verifies to before it expires. *)
Lemma encrypt_tokens_decode :
  forall (payload : SessionUserData) (s : @State token Ext),
    hook_create (this s) = None ->
    is_hmac (algorithm (this s)) = true ->
    secret (this s) <> ""%string ->
    no_registered_claims (others payload) = true ->
    exists a r,
      encrypt payload s
      = (Returns (mkIssuedTokenPair a r (Date_now (ext s) + 345600000) "Bearer"),
         mkState (this s) (ext s) (trace s ++ signed_twice payload s))
      /\ (forall t,
            t / 1000 < Date_now (ext s) / 1000 + 345600 ->
            jwt_verify a (secret (this s)) t
            = Returns (JObj (payload_fields payload
                             ++ signed_claims (sign_options (this s))
                                  (Date_now (ext s)) 345600000)))
      /\ (forall t,
            t / 1000 < Date_now (ext s) / 1000 + 604800 ->
            jwt_verify r (secret (this s)) t
            = Returns (JObj (refresh_fields payload
                             ++ signed_claims (with_expiresIn (sign_options (this s)) "7d")
                                  (Date_now (ext s)) 604800000))).
Proof.
  intros payload s Hc Hh Hk Hp.
  pose proof (payload_fields_unregistered payload Hp) as Hf.
  assert (Ho : so_algorithm (sign_options (this s)) = algorithm (this s))
    by (rewrite sign_options_eq; reflexivity).
  assert (Hs4 : ms (so_expiresIn (sign_options (this s))) = Some 345600000)
    by (rewrite sign_options_eq; reflexivity).
  assert (Hh4 : is_hmac (so_algorithm (sign_options (this s))) = true)
    by (rewrite Ho; exact Hh).
  assert (Hh7 : is_hmac (so_algorithm (with_expiresIn (sign_options (this s)) "7d")) = true)
    by exact Hh4.
  destruct (sign_accepts (payload_fields payload) (secret (this s))
              (sign_options (this s)) (Date_now (ext s)) 345600000 Hh4 Hk Hf Hs4)
    as [a Ha].
  destruct (sign_accepts (refresh_fields payload) (secret (this s))
              (with_expiresIn (sign_options (this s)) "7d") (Date_now (ext s)) 604800000
              Hh7 Hk eq_refl eq_refl)
    as [r Hr].
  exists a, r. split; [exact (encrypt_without_create payload s a r Hc Ha Hr)|]. split.
  - intros t Ht.
    exact (verify_sign _ _ _ _ _ a t Hh4 Hk Hf Hs4 Ha Ht).
  - intros t Ht.
    exact (verify_sign (refresh_fields payload) _ _ _ 604800000 r t Hh7 Hk eq_refl eq_refl
                       Hr Ht).
Qed.

(** X10: under the library contract (HMAC algorithm, non-empty secret, a
    payload without registered claims of its own) and with no [create] and
    no [get] hook, the refresh token of the pair is read back by the same
    manager at any time before seven days are over, so also after the four
    days of the access token: [decrypt] echoes it under [refresh_token] only,
    and [data] holds under ["data"] exactly the scope, refresh token and
    token type of [payload.auth], and no other property than the claims
    [iat], [exp] and [iss]. *)
Theorem refresh_token_round_trip :
  forall (payload : SessionUserData) (s : @State token Ext),
    hook_create (this s) = None ->
    hook_get (this s) = None ->
    is_hmac (algorithm (this s)) = true ->
    secret (this s) <> ""%string ->
    no_registered_claims (others payload) = true ->
    exists pair s1,
      encrypt payload s = (Returns pair, s1)
      /\ forall s2 : State,
           this s2 = this s ->
           Date_now (ext s2) / 1000 < Date_now (ext s) / 1000 + 604800 ->
           exists fields,
             fst (decrypt (pair_refresh_token pair) KRefreshToken s2)
             = Returns (Some (mkDecrypted (JObj fields) None (Some (pair_refresh_token pair))))
             /\ obj_get "data" fields
                = Some (JObj [("scope"%string, JStr (auth_scope (payload_auth payload)));
                              ("refresh_token"%string,
                               JStr (auth_refresh_token (payload_auth payload)));
                              ("token_type"%string,
                               JStr (auth_token_type (payload_auth payload)))])
             /\ forall k,
                  obj_get k fields <> None ->
                  In k ["data"; "iat"; "exp"; "iss"]%string.
Proof.
  intros payload s Hc Hg Hh Hk Hp.
  destruct (encrypt_tokens_decode payload s Hc Hh Hk Hp) as (a & r & He & _ & Hr).
  eexists. eexists. split; [exact He|]. cbn [pair_refresh_token].
  intros s2 Hthis Hfresh.
  eexists. split; [|split].
  - pose proof (decrypt_cases r KRefreshToken s2) as Hd. cbv zeta in Hd.
    rewrite Hthis, (Hr _ Hfresh), Hg in Hd. rewrite Hd. reflexivity.
  - reflexivity.
  - intros k. unfold refresh_fields, signed_claims. cbn [app obj_get].
    destruct (String.eqb_spec k "data") as [->|_]; [cbn; tauto|].
    destruct (String.eqb_spec k "iat") as [->|_]; [cbn; tauto|].
    destruct (String.eqb_spec k "exp") as [->|_]; [cbn; tauto|].
    destruct (so_issuer _); cbn [obj_get].
    + destruct (String.eqb_spec k "iss") as [->|_]; [cbn; tauto|].
      intros H. now contradiction H.
    + intros H. now contradiction H.
Qed.

End RoundTripMore.

(** X10 on the sample payload, read back six days after it was signed. *)
Lemma refresh_token_round_trip_witness :
  exists pair fields,
    fst (encrypt sample_payload plain_manager) = Returns pair
    /\ fst (decrypt (pair_refresh_token pair) KRefreshToken
              (mkState (this plain_manager) (clock0 + 6 * 86400000) []))
       = Returns (Some (mkDecrypted (JObj fields) None (Some (pair_refresh_token pair))))
    /\ obj_get "data" fields
       = Some (JObj [("scope"%string, JStr "identify");
                     ("refresh_token"%string, JStr "provider-refresh");
                     ("token_type"%string, JStr "Bearer")]).
Proof.
  destruct (refresh_token_round_trip (L := HmacJwtFacts.lib_lawful) (R := offline)
              sample_payload plain_manager eq_refl eq_refl eq_refl ltac:(discriminate)
              eq_refl)
    as (pair & s1 & He & Hd).
  destruct (Hd (mkState (this plain_manager) (clock0 + 6 * 86400000) []) eq_refl)
    as (fields & Hdec & Hdata & _).
  { vm_compute. reflexivity. }
  exists pair, fields. rewrite He. split; [reflexivity|]. split; [exact Hdec|exact Hdata].
Defined.

Section OAuthMore.
Context {token Ext : Type} {J : JwtLib token} {R : Runtime Ext}.

(** X12: when the token endpoint answers with a success status and a JSON
    body, [authOrRefresh] resolves to that body as it is, after one call of
    [fetch] and without logging anything. *)
Theorem authOrRefresh_success :
  forall (tokenOrCode : string) (grantType : GrantType) (redirectUri : option string)
         (s : @State token Ext) (a : ServerAuth Ext) result w body,
    server_auth = Some a ->
    fetch (token_request a tokenOrCode grantType redirectUri) (ext s) = (Returns result, w) ->
    ok result = true ->
    json_body result = Returns body ->
    authOrRefresh tokenOrCode grantType redirectUri s
    = (Returns body,
       mkState (this s) w
         (trace s ++ [EvFetch (token_request a tokenOrCode grantType redirectUri)])).
Proof.
  intros tokenOrCode grantType redirectUri s a result w body Ha Hf Hok Hb.
  unfold authOrRefresh. rewrite Ha. run. rewrite Hf. cbn. rewrite Hb. cbn.
  rewrite Hok. reflexivity.
Qed.

(** X13: the one request [authOrRefresh] makes is a POST to the token URL
    with a form-encoded body.  The form always carries the client id and
    secret; for a code grant it carries the code, [authorization_code] and a
    redirect URI, which is the configured one when there is one and the
    argument otherwise, and no refresh token; for a refresh grant it carries
    the refresh token and [refresh_token], and neither a code nor a redirect
    URI. *)
Theorem authOrRefresh_request :
  forall (tokenOrCode : string) (grantType : GrantType) (redirectUri : option string)
         (s : @State token Ext) (a : ServerAuth Ext),
    server_auth = Some a ->
    exists request form tail,
      trace (snd (authOrRefresh tokenOrCode grantType redirectUri s))
      = trace s ++ EvFetch request :: tail
      /\ existsb is_fetch tail = false
      /\ url request = tokenURL
      /\ method request = "POST"%string
      /\ headers request
         = [("content-type"%string, "application/x-www-form-urlencoded"%string)]
      /\ body request = stringify form
      /\ form_get "client_id" form = Some (Some (auth_id a))
      /\ form_get "client_secret" form = Some (Some (auth_secret a))
      /\ match grantType with
         | GrantCode =>
             form_get "code" form = Some (Some tokenOrCode)
             /\ form_get "grant_type" form = Some (Some "authorization_code"%string)
             /\ form_get "redirect_uri" form
                = Some (match redirect a with Some uri => Some uri | None => redirectUri end)
             /\ form_get "refresh_token" form = None
         | GrantRefresh =>
             form_get "refresh_token" form = Some (Some tokenOrCode)
             /\ form_get "grant_type" form = Some (Some "refresh_token"%string)
             /\ form_get "code" form = None
             /\ form_get "redirect_uri" form = None
         end.
Proof.
  intros tokenOrCode grantType redirectUri s a Ha.
  exists (token_request a tokenOrCode grantType redirectUri),
         (token_form a tokenOrCode grantType redirectUri).
  assert (Ht : exists tail,
             trace (snd (authOrRefresh tokenOrCode grantType redirectUri s))
             = trace s ++ EvFetch (token_request a tokenOrCode grantType redirectUri) :: tail
             /\ existsb is_fetch tail = false).
  { unfold authOrRefresh. rewrite Ha. run.
    destruct (fetch _ (ext s)) as [[result|e] w]; cbn; [|exists []; split; reflexivity].
    destruct (json_body result) as [json|e]; cbn; [|exists []; split; reflexivity].
    destruct (ok result); cbn; [exists []; split; reflexivity|].
    exists [EvLogError json]. rewrite <- app_assoc. split; reflexivity. }
  destruct Ht as (tail & Ht & Hn). exists tail.
  split; [exact Ht|]. split; [exact Hn|].
  destruct grantType; repeat split.
Qed.

(** X14: the redirect URI passed to [auth] or [authOrRefresh] is ignored
    for a refresh grant, and for a code grant whenever the server
    configuration has a redirect URI of its own: the run is the same
    whatever is passed. *)
Theorem redirectUri_argument_ignored :
  forall (tokenOrCode : string) (grantType : GrantType) (r1 r2 : option string)
         (s : @State token Ext),
    grantType = GrantRefresh
    \/ (exists a uri, server_auth = Some a /\ redirect a = Some uri) ->
    authOrRefresh tokenOrCode grantType r1 s = authOrRefresh tokenOrCode grantType r2 s
    /\ auth tokenOrCode grantType r1 s = auth tokenOrCode grantType r2 s.
Proof.
  intros tokenOrCode grantType r1 r2 s H.
  assert (Heq : authOrRefresh tokenOrCode grantType r1 s
                = authOrRefresh tokenOrCode grantType r2 s).
  { unfold authOrRefresh. destruct server_auth as [a|] eqn:Ha; [|reflexivity].
    replace (token_request a tokenOrCode grantType r1)
      with (token_request a tokenOrCode grantType r2); [reflexivity|].
    unfold token_request, token_form.
    destruct H as [->|(a' & uri & Ha' & Hu)]; [reflexivity|].
    injection Ha' as <-. rewrite Hu. reflexivity. }
  split; [exact Heq|]. unfold auth, bind. rewrite Heq. reflexivity.
Qed.

(** X15: on a server without an [auth] section, [authOrRefresh] and [auth]
    reject with a [TypeError] at once: nothing is fetched, nothing is logged,
    and the state is as it was. *)
Theorem auth_without_server_auth :
  forall (code : string) (grantType : GrantType) (redirectUri : option string)
         (s : @State token Ext),
    @server_auth Ext R = None ->
    exists e,
      err_name e = "TypeError"%string
      /\ authOrRefresh code grantType redirectUri s = (Throws e, s)
      /\ auth code grantType redirectUri s = (Throws e, s).
Proof.
  intros code grantType redirectUri s Ha.
  eexists. split; [|split].
  2: { unfold authOrRefresh. rewrite Ha. reflexivity. }
  - reflexivity.
  - unfold auth, bind, authOrRefresh. rewrite Ha. reflexivity.
Qed.

(** X16: when the exchange resolves to a value that is not nullish and the
    fetcher returns user data that is not nullish, [auth] resolves to both,
    having called the fetcher exactly once, after the exchange, with the
    [access_token] property of the provider's answer. *)
Theorem auth_success :
  forall (code : string) (grantType : GrantType) (redirectUri : option string)
         (s s1 : @State token Ext) (a : ServerAuth Ext) authData user w,
    server_auth = Some a ->
    authOrRefresh code grantType redirectUri s = (Returns authData, s1) ->
    isNullish authData = false ->
    fetchData a (prop "access_token" authData) (ext s1) = (Returns (Some user), w) ->
    isNullish user = false ->
    auth code grantType redirectUri s
    = (Returns (Some (mkAuthenticated authData user)),
       mkState (this s1) w (trace s1 ++ [EvFetchData (prop "access_token" authData)])).
Proof.
  intros code grantType redirectUri s s1 a authData user w Ha Hex Hn Hf Hu.
  unfold auth, bind. rewrite Hex, Hn, Ha. run. rewrite Hf. cbn. rewrite Hu. reflexivity.
Qed.

(** X17: after an exchange that succeeded, [auth] still resolves to [null]
    when the fetcher finds no user data ([undefined] or [null]), dropping the
    provider's tokens; and it rejects when the fetcher rejects. *)
Theorem auth_without_user_data :
  forall (code : string) (grantType : GrantType) (redirectUri : option string)
         (s s1 : @State token Ext) (a : ServerAuth Ext) authData,
    server_auth = Some a ->
    authOrRefresh code grantType redirectUri s = (Returns authData, s1) ->
    isNullish authData = false ->
    (forall user w,
        fetchData a (prop "access_token" authData) (ext s1) = (Returns user, w) ->
        isNullish_opt user = true ->
        fst (auth code grantType redirectUri s) = Returns None)
    /\ (forall e w,
          fetchData a (prop "access_token" authData) (ext s1) = (Throws e, w) ->
          fst (auth code grantType redirectUri s) = Throws e).
Proof.
  intros code grantType redirectUri s s1 a authData Ha Hex Hn.
  unfold auth, bind. rewrite Hex, Hn, Ha. run. split.
  - intros user w Hf Hu. rewrite Hf. cbn.
    destruct user as [user|]; [|reflexivity].
    cbn in Hu. rewrite Hu. reflexivity.
  - intros e w Hf. rewrite Hf. reflexivity.
Qed.

(** X18: the first call of [encrypt] on a freshly constructed manager signs
    with the secret of the server's [auth] section and, when the server has
    none, with the built-in key ["NEKO-PLUGINS"]; the algorithm is the one
    of the options and [HS512] when they name none. *)
Theorem fresh_manager_signing_key :
  forall (options : @ClientOptions token Ext) (payload : SessionUserData) (w : Ext),
    exists o tail,
      trace (snd (encrypt payload (mkState (new_Client options) w [])))
      = EvSign (JObj (payload_fields payload))
               (match server_auth with
                | Some a => auth_secret a
                | None => "NEKO-PLUGINS"%string
                end) o :: tail
      /\ so_algorithm o
         = match options_algorithm options with Some alg => alg | None => HS512 end.
Proof.
  intros options payload w.
  destruct (encrypt_first_call payload (mkState (new_Client options) w [])) as [tail Ht].
  eexists. exists tail. split; [exact Ht|].
  rewrite sign_options_eq. reflexivity.
Qed.

End OAuthMore.

(** X12 on a provider that grants the tokens. *)
Lemma authOrRefresh_success_witness :
  fst (authOrRefresh (R := granting) "abc" GrantCode None plain_manager) = Returns granted
  /\ trace (snd (authOrRefresh (R := granting) "abc" GrantCode None plain_manager))
     = [EvFetch (token_request (R := granting) discord_app "abc" GrantCode None)].
Proof.
  rewrite (authOrRefresh_success (R := granting) "abc" GrantCode None plain_manager
             discord_app (mkResponse true (Returns granted)) (clock0 + 20) granted
             eq_refl eq_refl eq_refl eq_refl).
  split; reflexivity.
Defined.

(** X13 on a refresh grant. *)
Lemma authOrRefresh_request_witness :
  exists request tail,
    trace (snd (authOrRefresh (R := refusing) "abc" GrantRefresh None plain_manager))
    = EvFetch request :: tail
    /\ body request
       = ("client_id=1234&client_secret=app-secret"
          ++ "&refresh_token=abc&grant_type=refresh_token")%string.
Proof.
  destruct (authOrRefresh_request (R := refusing) "abc" GrantRefresh None plain_manager
              discord_app eq_refl)
    as (request & form & tail & Ht & _).
  exists request, tail. split; [exact Ht|].
  vm_compute in Ht. injection Ht as <- _. reflexivity.
Defined.

(** X14 on an application with a redirect URI of its own. *)
Lemma redirectUri_argument_ignored_witness :
  authOrRefresh (R := refusing_with_redirect) "abc" GrantCode None plain_manager
  = authOrRefresh (R := refusing_with_redirect) "abc" GrantCode
      (Some "https://elsewhere.example/"%string) plain_manager.
Proof.
  exact (proj1 (redirectUri_argument_ignored (R := refusing_with_redirect) "abc" GrantCode
                  None (Some "https://elsewhere.example/"%string) plain_manager
                  (or_intror (ex_intro _ app_with_redirect
                                (ex_intro _ "https://neko.example/callback"%string
                                   (conj eq_refl eq_refl)))))).
Defined.

(** X15 on the server without an [auth] section. *)
Lemma auth_without_server_auth_witness :
  exists e,
    err_name e = "TypeError"%string
    /\ auth (R := unconfigured) "abc" GrantCode None fallback_manager
       = (Throws e, fallback_manager).
Proof.
  destruct (auth_without_server_auth (R := unconfigured) "abc" GrantCode None
              fallback_manager eq_refl) as (e & Hn & _ & Ha).
  exists e. split; [exact Hn|exact Ha].
Defined.

(** X16 on a provider that grants the tokens and an application that finds
    the user. *)
Lemma auth_success_witness :
  fst (auth (R := granting) "abc" GrantCode None plain_manager)
  = Returns (Some (mkAuthenticated granted (JObj [("id"%string, JStr "42")])))
  /\ trace (snd (auth (R := granting) "abc" GrantCode None plain_manager))
     = [EvFetch (token_request (R := granting) discord_app "abc" GrantCode None);
        EvFetchData (Some (JStr "provider-access"))].
Proof.
  rewrite (auth_success (R := granting) "abc" GrantCode None plain_manager
             (mkState (this plain_manager) (clock0 + 20)
                [EvFetch (token_request (R := granting) discord_app "abc" GrantCode None)])
             discord_app granted (JObj [("id"%string, JStr "42")]) (clock0 + 40)
             eq_refl eq_refl eq_refl eq_refl eq_refl).
  split; reflexivity.
Defined.

(** X17 on an application that finds no profile. *)
Lemma auth_without_user_data_witness :
  fst (authOrRefresh (R := granting_without_profile) "abc" GrantCode None plain_manager)
  = Returns granted
  /\ fst (auth (R := granting_without_profile) "abc" GrantCode None plain_manager)
     = Returns None.
Proof.
  split; [reflexivity|].
  exact (proj1 (auth_without_user_data (R := granting_without_profile) "abc" GrantCode None
                  plain_manager
                  (mkState (this plain_manager) (clock0 + 20)
                     [EvFetch (token_request (R := granting_without_profile)
                                 app_without_profile "abc" GrantCode None)])
                  app_without_profile granted eq_refl eq_refl eq_refl)
               None (clock0 + 40) eq_refl eq_refl).
Defined.

(** X18 on the server without an [auth] section: the built-in key signs. *)
Lemma fresh_manager_signing_key_witness :
  exists o tail,
    trace (snd (encrypt (R := unconfigured) sample_payload fallback_manager))
    = EvSign (JObj (payload_fields sample_payload)) "NEKO-PLUGINS" o :: tail
    /\ so_algorithm o = HS512.
Proof.
  exact (fresh_manager_signing_key (J := HmacJwt.lib) (R := unconfigured)
           no_options sample_payload clock0).
Defined.

End ClientMore.
